(** * Submission coordinator: mock service and retry hook

    A shallow embedding of [src/types/index.ts], of the service module
    [../services/mockApi] and of the hook [src/hooks/useSubmission.ts].  The
    service module is the second part of the hook's file; the line numbers
    quoted below are those of that file.

    Conventions of the embedding.
    - JavaScript numbers that are only compared, added and scaled (the random
      draws, the rates and the delays) are exact rationals [Q].  The sum
      [successRate + failureRate] of line 212 is exact here and rounded to
      a double in the source, so for a draw between the two sums the model
      and the source take different ones of the 503 and the delayed branch.
      No statement below says which of these two branches such a draw
      takes: a statement about a draw is about a draw below [successRate],
      which on doubles too is below [successRate + failureRate] when
      [failureRate] is not negative.
    - Millisecond timestamps ([Date.now()]) are integers [Z]; a template
      literal prints them in decimal, and [Math.floor(t / 1000) * 1000] is
      exact on them.
    - How a template literal prints [formData.amount], an arbitrary number,
      is a parameter of the hook ([numberToString]).
    - The module-level [Map] of the service is a [gmap string Submission].
      The object a call stores is also the [data] of its response; neither
      the service nor the hook assigns to it afterwards (the hook copies it
      with a spread), so records are values here.
    - Every value the environment supplies ([Math.random()], [Date.now()])
      is an explicit argument.
    - An [async] function is cut at its [await]s: the part that runs
      synchronously when the function is called, and the part that runs when
      the awaited promise settles.  What the event loop runs in between is
      what the caller of these parts does in between.  React state setters
      are applied in the order they are called. *)

From Stdlib Require Import ZArith QArith String Ascii List Lqa Sorted.
From stdpp Require Import gmap strings pretty list.

Local Open Scope Z_scope.

(** ** [src/types/index.ts] *)

Module Types.

Inductive Status := StPending | StSuccess | StError | StRetry.

Definition Status_eqb (a b : Status) : bool :=
  match a, b with
  | StPending, StPending | StSuccess, StSuccess
  | StError, StError | StRetry, StRetry => true
  | _, _ => false
  end.

Record FormData := { email : string; amount : Q }.

(** [Submission extends FormData]: the two inherited fields come first, as
    [sEmail] and [sAmount]. *)
Record Submission := {
  sEmail : string;
  sAmount : Q;
  id : string;
  timestamp : Z;
  status : Status;
  retryCount : nat;
  errorMessage : option string }.

Record ApiResponse := {
  success : bool;
  data : option Submission;
  error : option string }.

Record MockApiConfig := {
  successRate : Q;
  failureRate : Q;
  delayedRate : Q;
  minDelay : Q;
  maxDelay : Q }.

(** [Partial<MockApiConfig>]: every field may be left out. *)
Record PartialMockApiConfig := {
  successRate' : option Q;
  failureRate' : option Q;
  delayedRate' : option Q;
  minDelay' : option Q;
  maxDelay' : option Q }.

Definition withStatus (s : Submission) (st : Status) : Submission :=
  {| sEmail := sEmail s; sAmount := sAmount s; id := id s;
     timestamp := timestamp s; status := st; retryCount := retryCount s;
     errorMessage := errorMessage s |}.

End Types.
Import Types.

(** ** [src/services/mockApi.ts] *)

Module MockApi.

Definition DEFAULT_CONFIG : MockApiConfig :=
  {| successRate := 0.4; failureRate := 0.3; delayedRate := 0.3;
     minDelay := 5000; maxDelay := 10000 |}.

(** The default parameter [config = {}]. *)
Definition noConfig : PartialMockApiConfig :=
  {| successRate' := None; failureRate' := None; delayedRate' := None;
     minDelay' := None; maxDelay' := None |}.

(** [{ ...DEFAULT_CONFIG, ...config }] *)
Definition finalConfigOf (config : PartialMockApiConfig) : MockApiConfig :=
  {| successRate := default (successRate DEFAULT_CONFIG) (successRate' config);
     failureRate := default (failureRate DEFAULT_CONFIG) (failureRate' config);
     delayedRate := default (delayedRate DEFAULT_CONFIG) (delayedRate' config);
     minDelay := default (minDelay DEFAULT_CONFIG) (minDelay' config);
     maxDelay := default (maxDelay DEFAULT_CONFIG) (maxDelay' config) |}.

(** [a < b] on numbers. *)
Definition ltb (a b : Q) : bool :=
  match (a ?= b)%Q with Lt => true | _ => false end.

Definition generateIdempotencyKey (email : string) (timestamp : Z) : string :=
  let roundedTimestamp := timestamp / 1000 * 1000 in
  email +:+ ":" +:+ pretty roundedTimestamp.

(** What one call reads from its environment, in program order:
    [Math.random()] (line 210), [Date.now()] and the base-36 tail of a
    second [Math.random()] for the id, [Date.now()] for the timestamp, and
    the [Math.random()] that scales the delay. *)
Record Entropy := {
  random : Q;
  idNow : Z;
  idTail : string;
  tsNow : Z;
  delayRandom : Q }.

(** A call suspended at [await new Promise(... setTimeout(resolve, delay))]:
    its live locals. *)
Record Sleeper := {
  slKey : string;
  slSubmission : Submission;
  slDelay : Q }.

(** How far a call gets before it first yields to the event loop. *)
Inductive Progress :=
| Settled (response : ApiResponse)
| Sleeping (s : Sleeper).

Definition failure503 : ApiResponse :=
  {| success := false; data := None;
     error := Some "Service temporarily unavailable"%string |}.

Definition successOf (submission : Submission) : ApiResponse :=
  {| success := true; data := Some submission; error := None |}.

(** The response built from a cached record (lines 202-206). *)
Definition cachedResponse (cached : Submission) : ApiResponse :=
  {| success := Status_eqb (status cached) StSuccess;
     data := Some cached;
     error := if Status_eqb (status cached) StError
              then errorMessage cached else None |}.

(** The body of [submitToMockApi] up to its first suspension. *)
Definition submitToMockApi (formData : FormData) (idempotencyKey : string)
    (config : PartialMockApiConfig) (env : Entropy)
    (idempotencyStore : gmap string Submission)
    : gmap string Submission * Progress :=
  let finalConfig := finalConfigOf config in
  match idempotencyStore !! idempotencyKey with
  | Some cached =>
      (idempotencyStore, Settled (cachedResponse cached))
  | None =>
      let random := random env in
      let isSuccess := ltb random (successRate finalConfig) in
      let isFailure :=
        ltb random (successRate finalConfig + failureRate finalConfig)%Q in
      let isDelayed := negb isSuccess && negb isFailure in
      let submission :=
        {| sEmail := email formData; sAmount := amount formData;
           id := pretty (idNow env) +:+ "-" +:+ idTail env;
           timestamp := tsNow env; status := StPending; retryCount := 0;
           errorMessage := None |} in
      if isDelayed then
        let delay :=
          (delayRandom env * (maxDelay finalConfig - minDelay finalConfig)
           + minDelay finalConfig)%Q in
        (idempotencyStore,
         Sleeping {| slKey := idempotencyKey; slSubmission := submission;
                     slDelay := delay |})
      else if isFailure then
        (* the record is marked "error" and dropped: nothing is cached *)
        (idempotencyStore, Settled failure503)
      else
        let submission := withStatus submission StSuccess in
        (<[idempotencyKey := submission]> idempotencyStore,
         Settled (successOf submission))
  end.

(** The rest of the delayed branch, run when the timer fires. *)
Definition submitToMockApi_wake (s : Sleeper)
    (idempotencyStore : gmap string Submission)
    : gmap string Submission * ApiResponse :=
  let submission := withStatus (slSubmission s) StSuccess in
  (<[slKey s := submission]> idempotencyStore, successOf submission).

Definition clearIdempotencyStore (idempotencyStore : gmap string Submission)
    : gmap string Submission := ∅.

Definition getAllSubmissions (idempotencyStore : gmap string Submission)
    : list Submission := (map_to_list idempotencyStore).*2.

(** A call awaited with nothing else running meanwhile: the response, the
    store afterwards, and the artificial delay that was waited, if any. *)
Definition submitToMockApi_alone (formData : FormData) (idempotencyKey : string)
    (config : PartialMockApiConfig) (env : Entropy)
    (idempotencyStore : gmap string Submission)
    : gmap string Submission * ApiResponse * option Q :=
  match submitToMockApi formData idempotencyKey config env idempotencyStore with
  | (store, Settled r) => (store, r, None)
  | (store, Sleeping s) =>
      let '(store', r) := submitToMockApi_wake s store in
      (store', r, Some (slDelay s))
  end.

(** *** The service as the event loop sees it

    Calls arrive, timers of suspended calls fire in any order, and the
    exported [clearIdempotencyStore] may be called. *)
Record Service := {
  idempotencyStore : gmap string Submission;
  sleepers : list Sleeper }.

Definition boot : Service := {| idempotencyStore := ∅; sleepers := [] |}.

Inductive Request :=
| Call (formData : FormData) (idempotencyKey : string)
       (config : PartialMockApiConfig) (env : Entropy)
| Fire (i : nat)
| Clear.

Definition serve (rq : Request) (sv : Service) : Service * option ApiResponse :=
  match rq with
  | Call formData key config env =>
      match submitToMockApi formData key config env (idempotencyStore sv) with
      | (store, Settled r) =>
          ({| idempotencyStore := store; sleepers := sleepers sv |}, Some r)
      | (store, Sleeping s) =>
          ({| idempotencyStore := store; sleepers := sleepers sv ++ [s] |}, None)
      end
  | Fire i =>
      match sleepers sv !! i with
      | Some s =>
          let '(store, r) := submitToMockApi_wake s (idempotencyStore sv) in
          ({| idempotencyStore := store; sleepers := delete i (sleepers sv) |},
           Some r)
      | None => (sv, None)
      end
  | Clear =>
      ({| idempotencyStore := clearIdempotencyStore (idempotencyStore sv);
          sleepers := sleepers sv |}, None)
  end.

Definition serveAll (rqs : list Request) (sv : Service) : Service :=
  fold_left (fun sv rq => fst (serve rq sv)) rqs sv.

(** Calls made one after the other, each awaited before the next. *)
Record CallArgs := {
  caForm : FormData;
  caKey : string;
  caConfig : PartialMockApiConfig;
  caEnv : Entropy }.

Definition callAlone (c : CallArgs) (store : gmap string Submission)
    : gmap string Submission :=
  (submitToMockApi_alone (caForm c) (caKey c) (caConfig c) (caEnv c) store).1.1.

Definition callsInTurn (cs : list CallArgs) (store : gmap string Submission)
    : gmap string Submission :=
  fold_left (fun store c => callAlone c store) cs store.

(** Every record of the store is a success record. *)
Definition onlySuccesses (store : gmap string Submission) : Prop :=
  map_Forall (fun _ r => status r = StSuccess) store.

(** An immediate success: a success response with no suspension before it. *)
Definition immediateSuccess (p : Progress) : Prop :=
  match p with
  | Settled r => success r = true
  | Sleeping _ => False
  end.

(** The record a call creates and, on its success paths, stores
    (lines 216-222 with the status of line 231 or 248). *)
Definition freshRecord (formData : FormData) (env : Entropy) : Submission :=
  {| sEmail := email formData; sAmount := amount formData;
     id := pretty (idNow env) +:+ "-" +:+ idTail env;
     timestamp := tsNow env; status := StSuccess; retryCount := 0;
     errorMessage := None |}.

(** A string without the separator of the key. *)
Fixpoint noColon (s : string) : Prop :=
  match s with
  | EmptyString => True
  | String c s' => c <> ":"%char /\ noColon s'
  end.

End MockApi.

(** ** [src/hooks/useSubmission.ts] *)

Module UseSubmission.

Definition MAX_RETRIES : nat := 3.
Definition RETRY_DELAY : Q := 2000.

(** A value caught by [catch (err)]: an [Error] with its message, or
    anything else. *)
Inductive Thrown := ErrorWith (message : string) | NotAnError.

(** How the awaited promise of line 62 settles. *)
Inductive Outcome := Fulfilled (response : ApiResponse) | Rejected (err : Thrown).

Inductive Pending (S : Type) := Ready (o : Outcome) | Asleep (s : S).
Arguments Ready {S} o.
Arguments Asleep {S} s.

(** The service module as the hook imports it: a call runs up to its first
    suspension, a suspended call is woken later.  [epState] is the state
    private to the service, [epEntropy] what one call draws from its
    environment. *)
Record Endpoint := {
  epState : Type;
  epEntropy : Type;
  epSleeper : Type;
  epCall : FormData -> string -> epEntropy -> epState -> epState * Pending epSleeper;
  epWake : epSleeper -> epState -> epState * Outcome }.

(** The service of this repository; the hook passes no [config], and the
    promise of [submitToMockApi] is never rejected. *)
Definition callMockApi (formData : FormData) (key : string)
    (env : MockApi.Entropy) (store : gmap string Submission)
    : gmap string Submission * Pending MockApi.Sleeper :=
  match MockApi.submitToMockApi formData key MockApi.noConfig env store with
  | (store', MockApi.Settled r) => (store', Ready (Fulfilled r))
  | (store', MockApi.Sleeping s) => (store', Asleep s)
  end.

Definition wakeMockApi (s : MockApi.Sleeper) (store : gmap string Submission)
    : gmap string Submission * Outcome :=
  let '(store', r) := MockApi.submitToMockApi_wake s store in
  (store', Fulfilled r).

Definition mockApi : Endpoint :=
  {| epState := gmap string Submission;
     epEntropy := MockApi.Entropy;
     epSleeper := MockApi.Sleeper;
     epCall := callMockApi;
     epWake := wakeMockApi |}.

Arguments callMockApi : simpl never.
Arguments wakeMockApi : simpl never.

(** The four [useState] cells and the [useRef] cell. *)
Record HookState := {
  submissions : list Submission;
  isSubmitting : bool;
  error : option string;
  currentSubmission : option Submission;
  submissionInProgressRef : option string }.

Definition initialHookState : HookState :=
  {| submissions := []; isSubmitting := false; error := None;
     currentSubmission := None; submissionInProgressRef := None |}.

Definition setSubmissions (f : list Submission -> list Submission) (h : HookState) :=
  {| submissions := f (submissions h); isSubmitting := isSubmitting h;
     error := error h; currentSubmission := currentSubmission h;
     submissionInProgressRef := submissionInProgressRef h |}.
Definition setIsSubmitting (b : bool) (h : HookState) :=
  {| submissions := submissions h; isSubmitting := b;
     error := error h; currentSubmission := currentSubmission h;
     submissionInProgressRef := submissionInProgressRef h |}.
Definition setError (e : option string) (h : HookState) :=
  {| submissions := submissions h; isSubmitting := isSubmitting h;
     error := e; currentSubmission := currentSubmission h;
     submissionInProgressRef := submissionInProgressRef h |}.
Definition setCurrentSubmission (s : option Submission) (h : HookState) :=
  {| submissions := submissions h; isSubmitting := isSubmitting h;
     error := error h; currentSubmission := s;
     submissionInProgressRef := submissionInProgressRef h |}.
Definition setRef (r : option string) (h : HookState) :=
  {| submissions := submissions h; isSubmitting := isSubmitting h;
     error := error h; currentSubmission := currentSubmission h;
     submissionInProgressRef := r |}.

(** What the caller can observe of a run. *)
Inductive Event :=
| Invoked (formData : FormData) (idempotencyKey : string)
| Answered (o : Outcome)
| Shown (s : Submission)
| Backoff (ms : Q).

(** [a || b] on an optional string: [undefined] and the empty string are
    falsy. *)
Definition orElse (a : option string) (b : string) : string :=
  match a with
  | Some s => if String.eqb s "" then b else s
  | None => b
  end.

(** [response.success && response.data] as a condition. *)
Definition succeeded (o : Outcome) : option Submission :=
  match o with
  | Fulfilled response => if success response then data response else None
  | Rejected _ => None
  end.

Definition retrySnapshot (pendingSubmission : Submission) (retryCount : nat)
    (message : string) : Submission :=
  {| sEmail := sEmail pendingSubmission; sAmount := sAmount pendingSubmission;
     id := id pendingSubmission; timestamp := timestamp pendingSubmission;
     status := StRetry; retryCount := retryCount + 1;
     errorMessage := Some message |}.

Definition failedSnapshot (pendingSubmission : Submission) (retryCount : nat)
    (message : string) : Submission :=
  {| sEmail := sEmail pendingSubmission; sAmount := sAmount pendingSubmission;
     id := id pendingSubmission; timestamp := timestamp pendingSubmission;
     status := StError; retryCount := retryCount;
     errorMessage := Some message |}.

Definition successSnapshot (d : Submission) (retryCount : nat) : Submission :=
  {| sEmail := sEmail d; sAmount := sAmount d; id := id d;
     timestamp := timestamp d; status := StSuccess; retryCount := retryCount;
     errorMessage := errorMessage d |}.

Section Hook.

(** [String(n)] for a number inside a template literal. *)
Context (numberToString : Q -> string).
Context (ep : Endpoint).

Record World := { hook : HookState; service : epState ep }.

Definition onHook (f : HookState -> HookState) (w : World) : World :=
  {| hook := f (hook w); service := service w |}.

Inductive Awaiting :=
| AwaitEndpoint (p : Pending (epSleeper ep))
| AwaitRetryDelay.

(** An activation of [submit] suspended at an [await]: its live locals
    and where it waits.  [frEntropy n] is what the endpoint call of
    attempt [n] will draw. *)
Record Frame := {
  frFormData : FormData;
  frIdempotencyKey : string;
  frPendingSubmission : Submission;
  frRetryCount : nat;
  frEntropy : nat -> epEntropy ep;
  frAwaiting : Awaiting }.

Definition withAwaiting (fr : Frame) (a : Awaiting) : Frame :=
  {| frFormData := frFormData fr; frIdempotencyKey := frIdempotencyKey fr;
     frPendingSubmission := frPendingSubmission fr;
     frRetryCount := frRetryCount fr; frEntropy := frEntropy fr;
     frAwaiting := a |}.

Definition withRetryCount (fr : Frame) (n : nat) : Frame :=
  {| frFormData := frFormData fr; frIdempotencyKey := frIdempotencyKey fr;
     frPendingSubmission := frPendingSubmission fr;
     frRetryCount := n; frEntropy := frEntropy fr;
     frAwaiting := frAwaiting fr |}.

(** A step of an activation: the world after it, the activation if it is
    still suspended ([None] once [submit] has returned), what was
    observed. *)
Definition Step : Type := World * option Frame * list Event.

(** The loop test of line 60 and the call of line 62; where the activation
    waits afterwards is set here.  When the test fails the loop is left and
    [submit] returns without touching any cell. *)
Definition attempt (fr : Frame) (w : World) : Step :=
  if (frRetryCount fr <=? MAX_RETRIES)%nat then
    let '(sv, p) :=
      epCall ep (frFormData fr) (frIdempotencyKey fr)
             (frEntropy fr (frRetryCount fr)) (service w) in
    ({| hook := hook w; service := sv |},
     Some (withAwaiting fr (AwaitEndpoint p)),
     [Invoked (frFormData fr) (frIdempotencyKey fr)])
  else (w, None, []).

(** Lines 64-107 and 108-137: what follows the [await] of line 62. *)
Definition react (fr : Frame) (o : Outcome) (w : World) : Step :=
  let retryCount := frRetryCount fr in
  let pendingSubmission := frPendingSubmission fr in
  match o with
  | Fulfilled response =>
      match succeeded o with
      | Some d =>
          let successSubmission := successSnapshot d retryCount in
          (onHook (fun h =>
             setIsSubmitting false (setRef None
               (setCurrentSubmission (Some successSubmission)
                 (setSubmissions (cons successSubmission) h)))) w,
           None, [Answered o; Shown successSubmission])
      | None =>
          let lastError :=
            orElse (Types.error response) "Unknown error occurred" in
          if (retryCount <? MAX_RETRIES)%nat then
            let retrySubmission :=
              retrySnapshot pendingSubmission retryCount
                ("Failed: " +:+ lastError +:+ ". Retrying...") in
            (onHook (setCurrentSubmission (Some retrySubmission)) w,
             Some (withAwaiting fr AwaitRetryDelay),
             [Answered o; Shown retrySubmission; Backoff RETRY_DELAY])
          else
            let failedSubmission :=
              failedSnapshot pendingSubmission retryCount
                ("Failed after " +:+ pretty MAX_RETRIES +:+ " retries: "
                 +:+ lastError) in
            (onHook (fun h =>
               setIsSubmitting false (setRef None
                 (setError (Some ("Submission failed: " +:+ lastError))
                   (setCurrentSubmission (Some failedSubmission) h)))) w,
             None, [Answered o; Shown failedSubmission])
      end
  | Rejected err =>
      let errorMsg :=
        match err with
        | ErrorWith message => message
        | NotAnError => "Network error"%string
        end in
      if (retryCount <? MAX_RETRIES)%nat then
        let retrySubmission :=
          retrySnapshot pendingSubmission retryCount
            ("Error: " +:+ errorMsg +:+ ". Retrying...") in
        (onHook (setCurrentSubmission (Some retrySubmission)) w,
         Some (withAwaiting fr AwaitRetryDelay),
         [Answered o; Shown retrySubmission; Backoff RETRY_DELAY])
      else
        let failedSubmission :=
          failedSnapshot pendingSubmission retryCount
            ("Error after " +:+ pretty MAX_RETRIES +:+ " retries: "
             +:+ errorMsg) in
        (onHook (fun h =>
           setIsSubmitting false (setRef None
             (setError (Some ("Submission failed: " +:+ errorMsg))
               (setCurrentSubmission (Some failedSubmission) h)))) w,
         None, [Answered o; Shown failedSubmission])
  end.

(** The continuation of a suspended activation. *)
Definition resume (fr : Frame) (w : World) : Step :=
  match frAwaiting fr with
  | AwaitEndpoint (Ready o) => react fr o w
  | AwaitEndpoint (Asleep s) =>
      let '(sv, o) := epWake ep s (service w) in
      react fr o {| hook := hook w; service := sv |}
  | AwaitRetryDelay =>
      attempt (withRetryCount fr (frRetryCount fr + 1)) w
  end.

(** What [submit] reads besides its argument: [Date.now()], the base-36
    tail of [Math.random()], and the draws of its endpoint calls. *)
Record SubmitEnv := {
  now : Z;
  idTail : string;
  entropy : nat -> epEntropy ep }.

Definition dedupeToken (formData : FormData) : string :=
  email formData +:+ ":" +:+ numberToString (amount formData).

Definition alreadyInProgress : string :=
  "Request already in progress. Please wait.".

(** [submit] up to its first [await]: the duplicate check, the pending
    snapshot, and the first pass through the loop test and the endpoint
    call. *)
Definition submit (formData : FormData) (env : SubmitEnv) (w : World) : Step :=
  let currentKey := dedupeToken formData in
  if decide (submissionInProgressRef (hook w) = Some currentKey) then
    (onHook (setError (Some alreadyInProgress)) w, None, [])
  else
    let w := onHook (fun h =>
      setRef (Some currentKey) (setError None (setIsSubmitting true h))) w in
    let submissionTimestamp := now env in
    let idempotencyKey :=
      MockApi.generateIdempotencyKey (email formData) submissionTimestamp in
    let pendingSubmission :=
      {| sEmail := email formData; sAmount := amount formData;
         id := pretty submissionTimestamp +:+ "-" +:+ idTail env;
         timestamp := submissionTimestamp; status := StPending;
         retryCount := 0; errorMessage := None |} in
    let w := onHook (setCurrentSubmission (Some pendingSubmission)) w in
    let '(w', fr, evs) :=
      attempt {| frFormData := formData; frIdempotencyKey := idempotencyKey;
                 frPendingSubmission := pendingSubmission; frRetryCount := 0;
                 frEntropy := entropy env;
                 frAwaiting := AwaitRetryDelay |} w in
    (w', fr, Shown pendingSubmission :: evs).

(** Resuming one activation [fuel] times, the rest of the program acting
    on the world before each resumption ([others k] before the one with
    [k] resumptions still allowed). *)
Fixpoint runAmid (others : nat -> World -> World) (fuel : nat)
    (fr : Frame) (w : World) : Step :=
  match fuel with
  | O => (w, Some fr, [])
  | S fuel' =>
      let '(w1, fr1, evs1) := resume fr (others fuel' w) in
      match fr1 with
      | None => (w1, None, evs1)
      | Some fr1 =>
          let '(w2, fr2, evs2) := runAmid others fuel' fr1 w1 in
          (w2, fr2, evs1 ++ evs2)
      end
  end.

Definition quiet : nat -> World -> World := fun _ w => w.

(** Resumptions a call can need: one per [await], two per failed
    attempt. *)
Definition enoughFuel : nat := 2 * MAX_RETRIES + 1.

Definition submitAmid (others : nat -> World -> World)
    (formData : FormData) (env : SubmitEnv) (w : World) : Step :=
  let '(w1, fr1, evs1) := submit formData env w in
  match fr1 with
  | None => (w1, None, evs1)
  | Some fr1 =>
      let '(w2, fr2, evs2) := runAmid others enoughFuel fr1 w1 in
      (w2, fr2, evs1 ++ evs2)
  end.

(** A [submit] awaited with nothing else running. *)
Definition submitAlone := submitAmid quiet.

(** *** Several calls in one event loop *)
Record System := {
  world : World;
  inFlight : list Frame;
  observed : list Event }.

Inductive Turn :=
| Submit (formData : FormData) (env : SubmitEnv)
| Resume (i : nat).

Definition turn (t : Turn) (s : System) : System :=
  match t with
  | Submit formData env =>
      let '(w, fr, evs) := submit formData env (world s) in
      {| world := w;
         inFlight := inFlight s ++ option_list fr;
         observed := observed s ++ evs |}
  | Resume i =>
      match inFlight s !! i with
      | Some fr =>
          let '(w, fr', evs) := resume fr (world s) in
          {| world := w;
             inFlight := match fr' with
                         | Some fr' => <[i := fr']> (inFlight s)
                         | None => delete i (inFlight s)
                         end;
             observed := observed s ++ evs |}
      | None => s
      end
  end.

Definition turns (ts : list Turn) (s : System) : System :=
  fold_left (fun s t => turn t s) ts s.

Definition mounted (sv : epState ep) : System :=
  {| world := {| hook := initialHookState; service := sv |};
     inFlight := []; observed := [] |}.

End Hook.

Arguments hook {ep} _.
Arguments service {ep} _.
Arguments frFormData {ep} _.
Arguments frIdempotencyKey {ep} _.
Arguments frPendingSubmission {ep} _.
Arguments frRetryCount {ep} _.
Arguments frEntropy {ep} _.
Arguments frAwaiting {ep} _.
Arguments AwaitEndpoint {ep} _.
Arguments AwaitRetryDelay {ep}.
Arguments now {ep} _.
Arguments idTail {ep} _.
Arguments entropy {ep} _.
Arguments world {ep} _.
Arguments inFlight {ep} _.
Arguments observed {ep} _.
Arguments Submit {ep} _ _.
Arguments Resume {ep} _.
Arguments onHook {ep} _ _.
Arguments react {ep} _ _ _.
Arguments attempt {ep} _ _.
Arguments resume {ep} _ _.
Arguments runAmid {ep} _ _ _ _.
Arguments quiet {ep} _ _.
Arguments withAwaiting {ep} _ _.
Arguments withRetryCount {ep} _ _.

(** The outcomes a run observed, in order. *)
Definition outcomes (evs : list Event) : list Outcome :=
  omap (fun e => match e with Answered o => Some o | _ => None end) evs.

(** The endpoint calls a run made: their keys, and how many. *)
Definition invokedKeys (evs : list Event) : list string :=
  omap (fun e => match e with Invoked _ key => Some key | _ => None end) evs.

Definition invocations (evs : list Event) : nat := length (invokedKeys evs).

(** The snapshots handed to [setCurrentSubmission], in order. *)
Definition snapshots (evs : list Event) : list Submission :=
  omap (fun e => match e with Shown s => Some s | _ => None end) evs.

(** The detail the hook keeps of a failed attempt ([lastError], [errorMsg]). *)
Definition detail (o : Outcome) : string :=
  match o with
  | Fulfilled response => orElse (Types.error response) "Unknown error occurred"
  | Rejected (ErrorWith message) => message
  | Rejected NotAnError => "Network error"
  end.

(** The message of the terminal failed snapshot, by the kind of the last
    failure. *)
Definition failedMessage (o : Outcome) : string :=
  match o with
  | Fulfilled _ =>
      "Failed after " +:+ pretty MAX_RETRIES +:+ " retries: " +:+ detail o
  | Rejected _ =>
      "Error after " +:+ pretty MAX_RETRIES +:+ " retries: " +:+ detail o
  end.

Definition retryMessage (o : Outcome) : string :=
  match o with
  | Fulfilled _ => "Failed: " +:+ detail o +:+ ". Retrying..."
  | Rejected _ => "Error: " +:+ detail o +:+ ". Retrying..."
  end.

Definition failed (o : Outcome) : Prop := succeeded o = None.

(** The pending snapshot of lines 47-53 and the cells after lines 36-55. *)
Definition pendingSubmissionOf {ep} (formData : FormData) (env : SubmitEnv ep)
    : Submission :=
  {| sEmail := email formData; sAmount := amount formData;
     id := pretty (now env) +:+ "-" +:+ idTail env;
     timestamp := now env; status := StPending;
     retryCount := 0; errorMessage := None |}.

Definition started {ep} (token : string) (formData : FormData)
    (env : SubmitEnv ep) (h : HookState) : HookState :=
  setCurrentSubmission (Some (pendingSubmissionOf formData env))
    (setRef (Some token) (setError None (setIsSubmitting true h))).

(** The activation as it stands after the first endpoint call. *)
Definition firstFrame {ep} (formData : FormData) (env : SubmitEnv ep)
    (sv : epState ep) : Frame ep :=
  let key := MockApi.generateIdempotencyKey (email formData) (now env) in
  {| frFormData := formData; frIdempotencyKey := key;
     frPendingSubmission := pendingSubmissionOf formData env;
     frRetryCount := 0; frEntropy := entropy env;
     frAwaiting :=
       AwaitEndpoint (epCall ep formData key (entropy env 0%nat) sv).2 |}.

(** The outcome a suspended endpoint call delivers when the hook resumes,
    and the service state it leaves. *)
Definition delivered {ep} (p : Pending (epSleeper ep)) (sv : epState ep)
    : epState ep * Outcome :=
  match p with
  | Ready o => (sv, o)
  | Asleep s => epWake ep s sv
  end.

(** What the endpoint answers to [n] calls for one key made one after the
    other, each awaited before the next, the first with the draws of
    attempt [attempt]; and the service state after them. *)
Fixpoint answersInTurn {ep} (formData : FormData) (key : string)
    (entropy : nat -> epEntropy ep) (attempt n : nat) (sv : epState ep)
    : epState ep * list Outcome :=
  match n with
  | O => (sv, [])
  | S n' =>
      let '(sv1, p) := epCall ep formData key (entropy attempt) sv in
      let '(sv2, o) := delivered p sv1 in
      let '(sv3, os) := answersInTurn formData key entropy (attempt + 1) n' sv2 in
      (sv3, o :: os)
  end.

(** The same for an activation that is suspended: the answer it waits for,
    if any, comes first. *)
Definition answersFrom {ep} (fr : Frame ep) (n : nat) (sv : epState ep)
    : epState ep * list Outcome :=
  match frAwaiting fr with
  | AwaitEndpoint p =>
      let '(sv2, o) := delivered p sv in
      let '(sv3, os) :=
        answersInTurn (frFormData fr) (frIdempotencyKey fr) (frEntropy fr)
          (frRetryCount fr + 1) n sv2 in
      (sv3, o :: os)
  | AwaitRetryDelay =>
      answersInTurn (frFormData fr) (frIdempotencyKey fr) (frEntropy fr)
        (frRetryCount fr + 1) n sv
  end.

(** The store of the service of this repository. *)
Definition storeOf (w : World mockApi) : gmap string Submission := service w.

(** The attempt number of the next outcome an activation will see. *)
Definition nextAttempt {ep} (fr : Frame ep) : nat :=
  match frAwaiting fr with
  | AwaitEndpoint _ => frRetryCount fr
  | AwaitRetryDelay => frRetryCount fr + 1
  end.

(** Resumptions an activation can still need, and endpoint calls it can
    still make. *)
Definition stepsLeft {ep} (fr : Frame ep) : nat :=
  match frAwaiting fr with
  | AwaitEndpoint _ => 2 * (MAX_RETRIES - frRetryCount fr) + 1
  | AwaitRetryDelay => 2 * (MAX_RETRIES - (frRetryCount fr + 1)) + 2
  end.

Definition callsLeft {ep} (fr : Frame ep) : nat :=
  MAX_RETRIES - frRetryCount fr.

(** Two worlds that differ at most in the [error] cell. *)
Definition sameButError {ep} (w1 w2 : World ep) : Prop :=
  service w1 = service w2
  /\ setError None (hook w1) = setError None (hook w2).

(** [clearError] (lines 141-143). *)
Definition clearError (h : HookState) : HookState := setError None h.

(** The waits between attempts a run made, in order. *)
Definition backoffs (evs : list Event) : list Q :=
  omap (fun e => match e with Backoff ms => Some ms | _ => None end) evs.

(** The records of the successful outcomes a run saw, in order. *)
Definition successes (evs : list Event) : list Submission :=
  omap succeeded (outcomes evs).

(** An activation as [submit] makes them: it waits for the endpoint only
    after the loop test, and for the retry delay only when a retry is left. *)
Definition wellFormed {ep} (fr : Frame ep) : Prop :=
  match frAwaiting fr with
  | AwaitEndpoint _ => (frRetryCount fr <= MAX_RETRIES)%nat
  | AwaitRetryDelay => (frRetryCount fr < MAX_RETRIES)%nat
  end.

(** [s] is [p] but for its status, counter and message. *)
Definition sameIdentity (p s : Submission) : Prop :=
  sEmail s = sEmail p /\ sAmount s = sAmount p
  /\ id s = id p /\ timestamp s = timestamp p.

Definition onlySucceeded (l : list Submission) : Prop :=
  Forall (fun s => status s = StSuccess) l.

(** What the service of this repository can answer on a store of success
    records. *)
Definition mockOutcome (o : Outcome) : Prop :=
  o = Fulfilled MockApi.failure503
  \/ exists d, status d = StSuccess /\ o = Fulfilled (MockApi.successOf d).

Definition mockPending (fr : Frame mockApi) : Prop :=
  match frAwaiting fr with
  | AwaitEndpoint (Ready o) => mockOutcome o
  | _ => True
  end.

Definition unavailable : string := "Service temporarily unavailable".

End UseSubmission.

(** ** Sample data for the examples *)

Module Samples.
Import UseSubmission.

(** A rendering of numbers that agrees with JavaScript on whole numbers
    below 10^21, which is all the samples use. *)
Definition wholeNumberToString (q : Q) : string :=
  pretty (Qnum q / Z.pos (Qden q)).

Definition sampleForm : FormData := {| email := "a@x.com"; amount := 50 |}.
Definition otherForm : FormData := {| email := "b@x.com"; amount := 50 |}.

Definition sampleEntropy (draw : Q) : MockApi.Entropy :=
  {| MockApi.random := draw; MockApi.idNow := 1700000000000;
     MockApi.idTail := "k3j9x0a1b"; MockApi.tsNow := 1700000000000;
     MockApi.delayRandom := 0.5 |}.

Definition sampleRecord : Submission :=
  {| sEmail := "a@x.com"; sAmount := 50; id := "1700000000000-k3j9x0a1b";
     timestamp := 1700000000000; status := StSuccess; retryCount := 0;
     errorMessage := None |}.

Definition sampleCall (key : string) (draw : Q) : MockApi.CallArgs :=
  {| MockApi.caForm := sampleForm; MockApi.caKey := key;
     MockApi.caConfig := MockApi.noConfig;
     MockApi.caEnv := sampleEntropy draw |}.

(** The draws of the endpoint calls of one [submit], attempt by attempt. *)
Definition drawsOf (draws : list Q) (n : nat) : MockApi.Entropy :=
  {| MockApi.random := nth n draws 0%Q;
     MockApi.idNow := 1700000000500 + Z.of_nat n;
     MockApi.idTail := "k3j9x0a1b";
     MockApi.tsNow := 1700000000500 + Z.of_nat n;
     MockApi.delayRandom := 0.5 |}.

Definition sampleEnv (draws : list Q) : SubmitEnv mockApi :=
  @Build_SubmitEnv mockApi 1700000000123 "p0o9i8u7y" (drawsOf draws).

Definition freshWorld : World mockApi :=
  {| hook := initialHookState; service := ∅ |}.

(** Another [submit], for another form, made while the call under study
    waits for the answer to its first endpoint call. *)
Definition overlapping : nat -> World mockApi -> World mockApi :=
  fun n w =>
    if (n =? 5)%nat
    then (submit wholeNumberToString mockApi otherForm (sampleEnv [0.2%Q]) w).1.1
    else w.

End Samples.

(** * Properties of the service *)

Module MockApiFacts.
Import MockApi.

Lemma Status_eqb_eq a b : Status_eqb a b = true <-> a = b.
Proof. destruct a, b; simpl; split; congruence. Qed.

Lemma ltb_lt a b : ltb a b = true <-> (a < b)%Q.
Proof.
  unfold ltb. rewrite Qlt_alt.
  destruct (a ?= b)%Q; split; congruence.
Qed.

Lemma ltb_widen a s f : (0 <= f)%Q -> ltb a s = true -> ltb a (s + f) = true.
Proof.
  rewrite !ltb_lt. intros Hf Ha.
  apply Qlt_le_trans with s; [exact Ha|].
  rewrite <- (Qplus_0_r s) at 1. apply Qplus_le_r. exact Hf.
Qed.

Lemma submitToMockApi_hit formData key config env store cached :
  store !! key = Some cached ->
  submitToMockApi formData key config env store
  = (store, Settled (cachedResponse cached)).
Proof. intros H. unfold submitToMockApi. rewrite H. reflexivity. Qed.

(** The four ways out of the synchronous part of a call. *)
Lemma submitToMockApi_cases formData key config env store :
  (exists cached, store !! key = Some cached /\
     submitToMockApi formData key config env store
     = (store, Settled (cachedResponse cached)))
  \/ (store !! key = None /\
      submitToMockApi formData key config env store = (store, Settled failure503))
  \/ (store !! key = None /\ exists s, slKey s = key /\
      submitToMockApi formData key config env store = (store, Sleeping s))
  \/ (store !! key = None /\ exists d, status d = StSuccess /\
      submitToMockApi formData key config env store
      = (<[key := d]> store, Settled (successOf d))).
Proof.
  destruct (store !! key) as [cached|] eqn:Hk.
  - left. exists cached. split; [reflexivity|]. by apply submitToMockApi_hit.
  - right. unfold submitToMockApi. rewrite Hk. cbv zeta.
    destruct (negb _ && negb _).
    + right. left. split; [reflexivity|]. eexists. split; [|reflexivity]. reflexivity.
    + destruct (ltb (random env) _).
      * left. done.
      * right. right. split; [reflexivity|]. eexists. split; [|reflexivity]. reflexivity.
Qed.

Lemma submitToMockApi_onlySuccesses formData key config env store :
  onlySuccesses store ->
  onlySuccesses (submitToMockApi formData key config env store).1.
Proof.
  intros Hs.
  destruct (submitToMockApi_cases formData key config env store)
    as [(c & _ & ->)|[(_ & ->)|[(_ & s & _ & ->)|(_ & d & Hd & ->)]]]; simpl; try done.
  by apply map_Forall_insert_2.
Qed.

Lemma submitToMockApi_wake_onlySuccesses s store :
  onlySuccesses store -> onlySuccesses (submitToMockApi_wake s store).1.
Proof. intros Hs. simpl. by apply map_Forall_insert_2. Qed.

Lemma serve_onlySuccesses rq sv :
  onlySuccesses (idempotencyStore sv) ->
  onlySuccesses (idempotencyStore (serve rq sv).1).
Proof.
  intros Hs. destruct rq as [formData key config env|i|]; simpl.
  - pose proof (submitToMockApi_onlySuccesses formData key config env _ Hs) as H.
    destruct (submitToMockApi _ _ _ _ _) as [store [r|s]]; exact H.
  - destruct (sleepers sv !! i); simpl; [|done].
    by apply map_Forall_insert_2.
  - apply map_Forall_empty.
Qed.

Lemma serveAll_onlySuccesses rqs sv :
  onlySuccesses (idempotencyStore sv) ->
  onlySuccesses (idempotencyStore (serveAll rqs sv)).
Proof.
  revert sv. induction rqs as [|rq rqs IH]; intros sv Hs; [done|].
  simpl. apply IH. by apply serve_onlySuccesses.
Qed.

Lemma callAlone_keeps c store key r :
  store !! key = Some r -> callAlone c store !! key = Some r.
Proof.
  intros Hr. unfold callAlone, submitToMockApi_alone.
  destruct (submitToMockApi_cases (caForm c) (caKey c) (caConfig c) (caEnv c) store)
    as [(cd & _ & ->)|[(_ & ->)|[(Hn & s & Hs & ->)|(Hn & d & Hd & ->)]]]; simpl; try done.
  - rewrite Hs. rewrite lookup_insert_ne; [done|]. congruence.
  - rewrite lookup_insert_ne; [done|]. congruence.
Qed.

Lemma callsInTurn_keeps cs store key r :
  store !! key = Some r -> callsInTurn cs store !! key = Some r.
Proof.
  revert store. induction cs as [|c cs IH]; intros store Hr; [done|].
  simpl. apply IH. by apply callAlone_keeps.
Qed.

End MockApiFacts.

(** * Properties of the hook *)

Module HookFacts.
Import UseSubmission MockApiFacts.

Lemma outcomes_app evs1 evs2 : outcomes (evs1 ++ evs2) = outcomes evs1 ++ outcomes evs2.
Proof. apply omap_app. Qed.

Lemma snapshots_app evs1 evs2 :
  snapshots (evs1 ++ evs2) = snapshots evs1 ++ snapshots evs2.
Proof. apply omap_app. Qed.

Lemma invocations_app evs1 evs2 :
  invocations (evs1 ++ evs2) = (invocations evs1 + invocations evs2)%nat.
Proof. unfold invocations, invokedKeys. by rewrite omap_app, length_app. Qed.

Section AnyEndpoint.
Context {ep : Endpoint}.
Implicit Types (fr : Frame ep) (w : World ep) (o : Outcome).

(** The three ways through [react]. *)
Lemma react_success fr o w d :
  succeeded o = Some d ->
  react fr o w
  = (onHook (fun h =>
       setIsSubmitting false (setRef None
         (setCurrentSubmission (Some (successSnapshot d (frRetryCount fr)))
           (setSubmissions (cons (successSnapshot d (frRetryCount fr))) h)))) w,
     None,
     [Answered o; Shown (successSnapshot d (frRetryCount fr))]).
Proof.
  intros Hd. unfold react. destruct o as [response|err]; [|discriminate].
  by rewrite Hd.
Qed.

Lemma react_retry fr o w :
  failed o -> (frRetryCount fr < MAX_RETRIES)%nat ->
  react fr o w
  = (onHook (setCurrentSubmission
       (Some (retrySnapshot (frPendingSubmission fr) (frRetryCount fr)
                (retryMessage o)))) w,
     Some (withAwaiting fr AwaitRetryDelay),
     [Answered o;
      Shown (retrySnapshot (frPendingSubmission fr) (frRetryCount fr)
               (retryMessage o));
      Backoff RETRY_DELAY]).
Proof.
  intros Hf Hlt. apply Nat.ltb_lt in Hlt. unfold react.
  destruct o as [response|[message|]].
  - unfold failed in Hf. rewrite Hf, Hlt. reflexivity.
  - rewrite Hlt. reflexivity.
  - rewrite Hlt. reflexivity.
Qed.

Lemma react_give_up fr o w :
  failed o -> (MAX_RETRIES <= frRetryCount fr)%nat ->
  react fr o w
  = (onHook (fun h =>
       setIsSubmitting false (setRef None
         (setError (Some ("Submission failed: " +:+ detail o))
           (setCurrentSubmission
              (Some (failedSnapshot (frPendingSubmission fr) (frRetryCount fr)
                       (failedMessage o))) h)))) w,
     None,
     [Answered o;
      Shown (failedSnapshot (frPendingSubmission fr) (frRetryCount fr)
               (failedMessage o))]).
Proof.
  intros Hf Hge. apply Nat.ltb_ge in Hge. unfold react.
  destruct o as [response|[message|]].
  - unfold failed in Hf. rewrite Hf, Hge. reflexivity.
  - rewrite Hge. reflexivity.
  - rewrite Hge. reflexivity.
Qed.

(** [react] by cases, for proofs that only need its shape. *)
Lemma react_cases fr o w :
  (exists d, succeeded o = Some d /\ react fr o w
     = (onHook (fun h =>
          setIsSubmitting false (setRef None
            (setCurrentSubmission (Some (successSnapshot d (frRetryCount fr)))
              (setSubmissions (cons (successSnapshot d (frRetryCount fr))) h)))) w,
        None, [Answered o; Shown (successSnapshot d (frRetryCount fr))]))
  \/ (failed o /\ (frRetryCount fr < MAX_RETRIES)%nat /\ react fr o w
      = (onHook (setCurrentSubmission
           (Some (retrySnapshot (frPendingSubmission fr) (frRetryCount fr)
                    (retryMessage o)))) w,
         Some (withAwaiting fr AwaitRetryDelay),
         [Answered o;
          Shown (retrySnapshot (frPendingSubmission fr) (frRetryCount fr)
                   (retryMessage o));
          Backoff RETRY_DELAY]))
  \/ (failed o /\ (MAX_RETRIES <= frRetryCount fr)%nat /\ react fr o w
      = (onHook (fun h =>
           setIsSubmitting false (setRef None
             (setError (Some ("Submission failed: " +:+ detail o))
               (setCurrentSubmission
                  (Some (failedSnapshot (frPendingSubmission fr)
                           (frRetryCount fr) (failedMessage o))) h)))) w,
         None,
         [Answered o;
          Shown (failedSnapshot (frPendingSubmission fr) (frRetryCount fr)
                   (failedMessage o))])).
Proof.
  destruct (succeeded o) as [d|] eqn:Hd.
  - left. exists d. split; [done|]. by apply react_success.
  - right. destruct (Nat.lt_ge_cases (frRetryCount fr) MAX_RETRIES).
    + left. split; [done|]. split; [done|]. by apply react_retry.
    + right. split; [done|]. split; [done|]. by apply react_give_up.
Qed.

Lemma resume_endpoint fr w p :
  frAwaiting fr = AwaitEndpoint p ->
  resume fr w
  = react fr (delivered p (service w)).2
      {| hook := hook w; service := (delivered p (service w)).1 |}.
Proof.
  intros Hp. unfold resume. rewrite Hp. destruct p as [o|s]; simpl.
  - by destruct w.
  - by destruct (epWake ep s (service w)).
Qed.

Lemma resume_retry fr w :
  frAwaiting fr = AwaitRetryDelay ->
  resume fr w = attempt (withRetryCount fr (frRetryCount fr + 1)) w.
Proof. intros Hp. unfold resume. by rewrite Hp. Qed.

Lemma attempt_cases fr w :
  ((frRetryCount fr <= MAX_RETRIES)%nat /\
   attempt fr w
   = ({| hook := hook w;
         service := (epCall ep (frFormData fr) (frIdempotencyKey fr)
                       (frEntropy fr (frRetryCount fr)) (service w)).1 |},
      Some (withAwaiting fr (AwaitEndpoint
        (epCall ep (frFormData fr) (frIdempotencyKey fr)
           (frEntropy fr (frRetryCount fr)) (service w)).2)),
      [Invoked (frFormData fr) (frIdempotencyKey fr)]))
  \/ ((MAX_RETRIES < frRetryCount fr)%nat /\ attempt fr w = (w, None, [])).
Proof.
  unfold attempt. destruct (Nat.leb_spec (frRetryCount fr) MAX_RETRIES).
  - left. split; [done|]. by destruct (epCall _ _ _ _ _).
  - right. done.
Qed.

Lemma resume_stepsLeft fr w fr' :
  (resume fr w).1.2 = Some fr' -> (stepsLeft fr' < stepsLeft fr)%nat.
Proof.
  destruct (frAwaiting fr) as [p|] eqn:Hp.
  - rewrite (resume_endpoint _ _ _ Hp).
    destruct (react_cases fr (delivered p (service w)).2
                {| hook := hook w; service := (delivered p (service w)).1 |})
      as [(d & _ & ->)|[(_ & Hlt & ->)|(_ & _ & ->)]]; simpl; try discriminate.
    intros [= <-]. unfold stepsLeft. rewrite Hp. simpl. unfold MAX_RETRIES in *. lia.
  - rewrite (resume_retry _ _ Hp).
    destruct (attempt_cases (withRetryCount fr (frRetryCount fr + 1)) w)
      as [(Hle & ->)|(_ & ->)]; simpl; try discriminate.
    intros [= <-]. unfold stepsLeft. rewrite Hp. simpl in *. unfold MAX_RETRIES in *. lia.
Qed.

Lemma stepsLeft_pos fr : (0 < stepsLeft fr)%nat.
Proof. unfold stepsLeft. destruct (frAwaiting fr); lia. Qed.

Lemma runAmid_finishes others fuel fr w :
  (stepsLeft fr <= fuel)%nat -> (runAmid others fuel fr w).1.2 = None.
Proof.
  revert fr w. induction fuel as [|fuel IH]; intros fr w Hfuel.
  - pose proof (stepsLeft_pos fr). lia.
  - simpl. pose proof (resume_stepsLeft fr (others fuel w)) as Hdec.
    destruct (resume fr (others fuel w)) as [[w1 [fr1|]] evs1]; [|done].
    specialize (Hdec fr1 eq_refl).
    specialize (IH fr1 w1 ltac:(lia)).
    by destruct (runAmid others fuel fr1 w1) as [[w2 fr2] evs2].
Qed.

Lemma resume_callsLeft fr w :
  (invocations (resume fr w).2
   + from_option callsLeft 0%nat (resume fr w).1.2 <= callsLeft fr)%nat.
Proof.
  destruct (frAwaiting fr) as [p|] eqn:Hp.
  - rewrite (resume_endpoint _ _ _ Hp).
    destruct (react_cases fr (delivered p (service w)).2
                {| hook := hook w; service := (delivered p (service w)).1 |})
      as [(d & _ & ->)|[(_ & Hlt & ->)|(_ & _ & ->)]];
      unfold invocations, callsLeft; simpl; lia.
  - rewrite (resume_retry _ _ Hp).
    destruct (attempt_cases (withRetryCount fr (frRetryCount fr + 1)) w)
      as [(Hle & ->)|(_ & ->)];
      unfold invocations, callsLeft in *; simpl in *; lia.
Qed.

Lemma runAmid_invocations others fuel fr w :
  (invocations (runAmid others fuel fr w).2 <= callsLeft fr)%nat.
Proof.
  revert fr w. induction fuel as [|fuel IH]; intros fr w; simpl.
  - unfold invocations; simpl. lia.
  - pose proof (resume_callsLeft fr (others fuel w)) as Hdec.
    destruct (resume fr (others fuel w)) as [[w1 [fr1|]] evs1]; simpl in *; [|lia].
    specialize (IH fr1 w1).
    destruct (runAmid others fuel fr1 w1) as [[w2 fr2] evs2]; simpl in *.
    rewrite invocations_app. lia.
Qed.

Lemma setters_sameButError (f : HookState -> HookState) w1 w2 :
  (forall h1 h2, setError None h1 = setError None h2 ->
                 setError None (f h1) = setError None (f h2)) ->
  sameButError w1 w2 -> sameButError (onHook f w1) (onHook f w2).
Proof. intros Hf [Hsv Hh]. split; simpl; [done|]. by apply Hf. Qed.

Lemma resume_sameButError fr w1 w2 :
  sameButError w1 w2 ->
  (resume fr w1).1.2 = (resume fr w2).1.2
  /\ (resume fr w1).2 = (resume fr w2).2
  /\ sameButError (resume fr w1).1.1 (resume fr w2).1.1.
Proof.
  intros Hsame. pose proof Hsame as [Hsv Hh].
  destruct (frAwaiting fr) as [p|] eqn:Hp.
  - rewrite !(resume_endpoint _ _ _ Hp). rewrite <- Hsv.
    set (o := (delivered p (service w1)).2).
    set (sv := (delivered p (service w1)).1).
    assert (sameButError {| hook := hook w1; service := sv |}
                         {| hook := hook w2; service := sv |}) as Hs by done.
    destruct (succeeded o) as [d|] eqn:Hd.
    + rewrite !(react_success _ _ _ d Hd). simpl. split; [done|]. split; [done|].
      apply setters_sameButError; [|done].
      intros [] [] [=]; simpl in *; by subst.
    + destruct (Nat.lt_ge_cases (frRetryCount fr) MAX_RETRIES) as [Hlt|Hge].
      * rewrite !(react_retry _ _ _ Hd Hlt). simpl. split; [done|]. split; [done|].
        apply setters_sameButError; [|done].
        intros [] [] [=]; simpl in *; by subst.
      * rewrite !(react_give_up _ _ _ Hd Hge). simpl. split; [done|]. split; [done|].
        apply setters_sameButError; [|done].
        intros [] [] [=]; simpl in *; by subst.
  - rewrite !(resume_retry _ _ Hp).
    destruct (attempt_cases (withRetryCount fr (frRetryCount fr + 1)) w1)
      as [(Hle & ->)|(Hgt & ->)];
    destruct (attempt_cases (withRetryCount fr (frRetryCount fr + 1)) w2)
      as [(Hle' & ->)|(Hgt' & ->)]; try lia; simpl.
    + rewrite <- Hsv. split; [done|]. split; [done|]. by split.
    + done.
Qed.

Lemma runAmid_sameButError fuel : forall fr w1 w2,
  sameButError w1 w2 ->
  (runAmid quiet fuel fr w1).1.2 = (runAmid quiet fuel fr w2).1.2
  /\ (runAmid quiet fuel fr w1).2 = (runAmid quiet fuel fr w2).2
  /\ sameButError (runAmid quiet fuel fr w1).1.1 (runAmid quiet fuel fr w2).1.1.
Proof.
  induction fuel as [|fuel IH]; intros fr w1 w2 Hsame; [done|].
  simpl. unfold quiet at 1 3 5 7 9 11.
  destruct (resume_sameButError fr w1 w2 Hsame) as (Hfr & Hevs & Hw).
  destruct (resume fr w1) as [[w1' fr1] evs1].
  destruct (resume fr w2) as [[w2' fr2] evs2].
  simpl in *. subst fr2 evs2.
  destruct fr1 as [fr1|]; [|done].
  destruct (IH fr1 w1' w2' Hw) as (Hfr' & Hevs' & Hw').
  destruct (runAmid quiet fuel fr1 w1') as [[w1'' fr1'] evs1'].
  destruct (runAmid quiet fuel fr1 w2') as [[w2'' fr2'] evs2'].
  simpl in *. by subst.
Qed.



(** An activation keeps its key and passes it to every endpoint call. *)
Lemma resume_key fr w :
  Forall (eq (frIdempotencyKey fr)) (invokedKeys (resume fr w).2)
  /\ forall fr', (resume fr w).1.2 = Some fr' ->
                 frIdempotencyKey fr' = frIdempotencyKey fr.
Proof.
  destruct (frAwaiting fr) as [p|] eqn:Hp.
  - rewrite (resume_endpoint _ _ _ Hp).
    destruct (react_cases fr (delivered p (service w)).2
                {| hook := hook w; service := (delivered p (service w)).1 |})
      as [(d1 & Hd1 & ->)|[(Hf1 & Hlt & ->)|(Hf1 & Hge & ->)]];
      (split; [by constructor|]); intros fr' [=]; by subst.
  - rewrite (resume_retry _ _ Hp).
    destruct (attempt_cases (withRetryCount fr (frRetryCount fr + 1)) w)
      as [(_ & ->)|(_ & ->)].
    + split; [by repeat constructor|]. intros fr' [=]; by subst.
    + split; [by constructor|]. intros fr' [=].
Qed.

Lemma runAmid_key others fuel : forall fr w,
  Forall (eq (frIdempotencyKey fr)) (invokedKeys (runAmid others fuel fr w).2).
Proof.
  induction fuel as [|fuel IH]; intros fr w; simpl; [by constructor|].
  destruct (resume_key fr (others fuel w)) as [Hk Hfr].
  destruct (resume fr (others fuel w)) as [[w1 [fr1|]] evs1]; simpl in *; [|done].
  specialize (IH fr1 w1). rewrite (Hfr fr1 eq_refl) in IH.
  destruct (runAmid others fuel fr1 w1) as [[w2 fr2] evs2]; simpl in *.
  unfold invokedKeys in *. rewrite omap_app. by apply Forall_app.
Qed.

Lemma step_eta (x : Step ep) : x = (x.1.1, x.1.2, x.2).
Proof. by destruct x as [[??]?]. Qed.

Lemma submit_cases numberToString formData (env : SubmitEnv ep) w :
  let token := dedupeToken numberToString formData in
  let key := MockApi.generateIdempotencyKey (email formData) (now env) in
  (submissionInProgressRef (hook w) = Some token /\
   submit numberToString ep formData env w
   = (onHook (setError (Some alreadyInProgress)) w, None, []))
  \/ (submissionInProgressRef (hook w) <> Some token /\
      submit numberToString ep formData env w
      = ({| hook := started token formData env (hook w);
            service := (epCall ep formData key (entropy env 0%nat) (service w)).1 |},
         Some (firstFrame formData env (service w)),
         [Shown (pendingSubmissionOf formData env); Invoked formData key])).
Proof.
  intros token key. unfold submit. fold token.
  destruct (decide (submissionInProgressRef (hook w) = Some token)) as [Hin|Hout].
  - left. done.
  - right. split; [done|]. unfold attempt, firstFrame. simpl. fold key.
    by destruct (epCall ep formData key (entropy env 0%nat) (service w)).
Qed.

End AnyEndpoint.

(** With the service of this repository. *)
Section MockEndpoint.
Implicit Types (fr : Frame mockApi) (w : World mockApi) (o : Outcome).

Lemma mockApi_call formData key env (store : gmap string Submission) :
  let called := callMockApi formData key env store in
  (called.1 = store /\ 
    ((exists o, called.2 = Ready o /\ forall d, succeeded o = Some d -> store !! key = Some d)
     \/ exists s, called.2 = Asleep s /\ MockApi.slKey s = key))
  \/ (exists d, called.1 = <[key := d]> store
                /\ called.2 = Ready (Fulfilled (MockApi.successOf d))).
Proof.
  unfold callMockApi.
  destruct (submitToMockApi_cases formData key MockApi.noConfig env store)
    as [(c & Hc & ->)|[(_ & ->)|[(_ & s & Hs & ->)|(_ & d & Hd & ->)]]]; simpl.
  - left. split; [done|]. left. eexists. split; [done|].
    intros d. unfold MockApi.cachedResponse. simpl.
    destruct (Status_eqb _ _); [|done]. congruence.
  - left. split; [done|]. left. eexists. split; [done|]. done.
  - left. split; [done|]. right. eauto.
  - right. eauto.
Qed.

Lemma mockApi_wake s (store : gmap string Submission) :
  exists d, wakeMockApi s store
            = (<[MockApi.slKey s := d]> store, Fulfilled (MockApi.successOf d)).
Proof. eexists. reflexivity. Qed.

Lemma delivered_failed_keeps p (store : gmap string Submission) :
  failed (delivered (ep:=mockApi) p store).2 ->
  (delivered (ep:=mockApi) p store).1 = store.
Proof. destruct p as [o|s]; [done|]. by intros [=]. Qed.

End MockEndpoint.

End HookFacts.

(** * Further facts about the service and about runs *)

Module ExtraFacts.
Import MockApi UseSubmission MockApiFacts HookFacts.

Lemma pretty_N_char_noColon x : pretty_N_char x <> ":"%char.
Proof. unfold pretty_N_char. by repeat case_match. Qed.

Lemma pretty_N_go_noColon x : forall s, noColon s -> noColon (pretty_N_go x s).
Proof.
  induction (N.lt_wf_0 x) as [x _ IH]; intros s Hs.
  destruct (decide (x = 0)%N) as [->|Hx]; [by rewrite pretty_N_go_0|].
  rewrite pretty_N_go_step by lia.
  apply IH; [apply N.div_lt; lia|].
  split; [apply pretty_N_char_noColon|exact Hs].
Qed.

Lemma pretty_Z_noColon (z : Z) : noColon (pretty z).
Proof.
  assert (forall p : positive, noColon (pretty p)) as Hpos.
  { intros p. unfold pretty, pretty_positive, pretty, pretty_N.
    case_decide; [done|]. by apply pretty_N_go_noColon. }
  destruct z as [|p|p]; unfold pretty, pretty_Z; [done|apply Hpos|].
  split; [discriminate|apply Hpos].
Qed.

Lemma noColon_app_colon a b : ~ noColon (a +:+ ":" +:+ b).
Proof. induction a as [|c a IH]; simpl; [by intros [? _]|]. intros [_ H]. by apply IH. Qed.

Lemma colon_split_inj e1 : forall e2 p1 p2,
  noColon p1 -> noColon p2 ->
  e1 +:+ ":" +:+ p1 = e2 +:+ ":" +:+ p2 -> e1 = e2 /\ p1 = p2.
Proof.
  induction e1 as [|c e1 IH]; intros [|c2 e2] p1 p2 H1 H2 Heq; simpl in Heq.
  - by simplify_eq.
  - injection Heq as _ Heq. exfalso. apply (noColon_app_colon e2 p2). by rewrite <- Heq.
  - injection Heq as _ Heq. exfalso. apply (noColon_app_colon e1 p1). by rewrite Heq.
  - injection Heq as -> Heq. destruct (IH _ _ _ H1 H2 Heq) as [-> ->]. done.
Qed.

Lemma submitToMockApi_alone_cases formData key config env
    (store : gmap string Submission) :
  (exists cached, store !! key = Some cached /\
     submitToMockApi_alone formData key config env store
     = (store, cachedResponse cached, None))
  \/ (store !! key = None /\
      submitToMockApi_alone formData key config env store
      = (store, failure503, None))
  \/ (store !! key = None /\ exists delay,
      submitToMockApi_alone formData key config env store
      = (<[key := freshRecord formData env]> store,
         successOf (freshRecord formData env), delay)).
Proof.
  unfold submitToMockApi_alone, submitToMockApi.
  destruct (store !! key) as [cached|] eqn:Hk.
  - left. eauto.
  - right. cbv zeta. destruct (negb _ && negb _).
    + right. split; [done|]. by eexists.
    + destruct (ltb (random env) _).
      * left. done.
      * right. split; [done|]. by eexists.
Qed.

Lemma cachedResponse_success c :
  status c = StSuccess -> cachedResponse c = successOf c.
Proof. intros Hc. unfold cachedResponse. by rewrite Hc. Qed.

(** A failure as the hook tests it (line 64), spelled out. *)
Lemma failed_spelled o :
  match o with
  | Fulfilled r => success r = false \/ data r = None
  | Rejected _ => True
  end -> failed o.
Proof.
  unfold failed. destruct o as [r|e]; [|done]. simpl.
  intros [->| ->]; [done|]. by destruct (success r).
Qed.

Lemma script_last (script : nat -> Outcome) k :
  last (script <$> seq 0 (S k)) = Some (script k).
Proof. rewrite seq_S, fmap_app. simpl. apply last_snoc. Qed.

(** The texts of lines 78, 102, 109 and 131, spelled out. *)
Lemma detail_spelled o :
  detail o
  = match o with
    | Fulfilled r =>
        match Types.error r with
        | Some e => if decide (e = "") then "Unknown error occurred" else e
        | None => "Unknown error occurred"
        end
    | Rejected (ErrorWith message) => message
    | Rejected NotAnError => "Network error"
    end%string.
Proof.
  unfold detail, orElse. destruct o as [r|[m|]]; [|done|done].
  destruct (Types.error r) as [e|]; [|done].
  destruct (decide (e = "")) as [->|Hne]; [done|].
  by apply String.eqb_neq in Hne as ->.
Qed.

Lemma failedMessage_spelled o :
  failedMessage o
  = (match o with
     | Fulfilled _ => "Failed after 3 retries: "
     | Rejected _ => "Error after 3 retries: "
     end +:+ detail o)%string.
Proof. by destruct o. Qed.

(** The answers of a list, as a script. *)
Lemma script_of_list (l : list Outcome) (dflt : Outcome) :
  (fun j => default dflt (l !! j)) <$> seq 0 (length l) = l.
Proof.
  apply list_eq. intros j. rewrite list_lookup_fmap.
  destruct (l !! j) as [x|] eqn:Hj.
  - rewrite (lookup_seq_lt 0 (length l) j); [|by eapply lookup_lt_Some].
    simpl. by rewrite Hj.
  - rewrite lookup_seq_ge; [done|]. by apply lookup_ge_None.
Qed.

Section AnyEndpoint.
Context {ep : Endpoint}.
Implicit Types (fr : Frame ep) (w : World ep) (o : Outcome).

Lemma backoffs_app evs1 evs2 : backoffs (evs1 ++ evs2) = backoffs evs1 ++ backoffs evs2.
Proof. apply omap_app. Qed.

Lemma resume_wellFormed fr w fr' :
  wellFormed fr -> (resume fr w).1.2 = Some fr' -> wellFormed fr'.
Proof.
  unfold wellFormed. intros Hwf.
  destruct (frAwaiting fr) as [p|] eqn:Hp.
  - rewrite (resume_endpoint _ _ _ Hp).
    destruct (react_cases fr (delivered p (service w)).2
                {| hook := hook w; service := (delivered p (service w)).1 |})
      as [(d & _ & ->)|[(_ & Hlt & ->)|(_ & _ & ->)]]; simpl; try discriminate.
    by intros [= <-].
  - rewrite (resume_retry _ _ Hp).
    destruct (attempt_cases (withRetryCount fr (frRetryCount fr + 1)) w)
      as [(Hle & ->)|(_ & ->)]; simpl; try discriminate.
    by intros [= <-].
Qed.

(** One step of a well-formed activation, by cases. *)
Lemma resume_cases fr w :
  wellFormed fr ->
  (exists p d, frAwaiting fr = AwaitEndpoint p
     /\ succeeded (delivered p (service w)).2 = Some d
     /\ resume fr w
        = (onHook (fun h =>
             setIsSubmitting false (setRef None
               (setCurrentSubmission (Some (successSnapshot d (frRetryCount fr)))
                 (setSubmissions (cons (successSnapshot d (frRetryCount fr))) h))))
             {| hook := hook w; service := (delivered p (service w)).1 |},
           None,
           [Answered (delivered p (service w)).2;
            Shown (successSnapshot d (frRetryCount fr))]))
  \/ (exists p, frAwaiting fr = AwaitEndpoint p
      /\ failed (delivered p (service w)).2
      /\ (frRetryCount fr < MAX_RETRIES)%nat
      /\ resume fr w
         = (onHook (setCurrentSubmission
              (Some (retrySnapshot (frPendingSubmission fr) (frRetryCount fr)
                       (retryMessage (delivered p (service w)).2))))
              {| hook := hook w; service := (delivered p (service w)).1 |},
            Some (withAwaiting fr AwaitRetryDelay),
            [Answered (delivered p (service w)).2;
             Shown (retrySnapshot (frPendingSubmission fr) (frRetryCount fr)
                      (retryMessage (delivered p (service w)).2));
             Backoff RETRY_DELAY]))
  \/ (exists p, frAwaiting fr = AwaitEndpoint p
      /\ failed (delivered p (service w)).2
      /\ frRetryCount fr = MAX_RETRIES
      /\ resume fr w
         = (onHook (fun h =>
              setIsSubmitting false (setRef None
                (setError (Some ("Submission failed: "
                                 +:+ detail (delivered p (service w)).2))
                  (setCurrentSubmission
                     (Some (failedSnapshot (frPendingSubmission fr)
                              (frRetryCount fr)
                              (failedMessage (delivered p (service w)).2))) h))))
              {| hook := hook w; service := (delivered p (service w)).1 |},
            None,
            [Answered (delivered p (service w)).2;
             Shown (failedSnapshot (frPendingSubmission fr) (frRetryCount fr)
                      (failedMessage (delivered p (service w)).2))]))
  \/ (frAwaiting fr = AwaitRetryDelay
      /\ (frRetryCount fr < MAX_RETRIES)%nat
      /\ resume fr w
         = ({| hook := hook w;
               service := (epCall ep (frFormData fr) (frIdempotencyKey fr)
                             (frEntropy fr (frRetryCount fr + 1)) (service w)).1 |},
            Some (withAwaiting (withRetryCount fr (frRetryCount fr + 1))
                    (AwaitEndpoint
                       (epCall ep (frFormData fr) (frIdempotencyKey fr)
                          (frEntropy fr (frRetryCount fr + 1)) (service w)).2)),
            [Invoked (frFormData fr) (frIdempotencyKey fr)])).
Proof.
  unfold wellFormed. intros Hwf.
  destruct (frAwaiting fr) as [p|] eqn:Hp.
  - rewrite (resume_endpoint _ _ _ Hp).
    destruct (react_cases fr (delivered p (service w)).2
                {| hook := hook w; service := (delivered p (service w)).1 |})
      as [(d & Hd & ->)|[(Hf & Hlt & ->)|(Hf & Hge & ->)]].
    + left. by exists p, d.
    + right. left. by exists p.
    + right. right. left. exists p. repeat split; try done. lia.
  - right. right. right. rewrite (resume_retry _ _ Hp).
    destruct (attempt_cases (withRetryCount fr (frRetryCount fr + 1)) w)
      as [(Hle & ->)|(Hgt & ->)]; simpl in *; [done|lia].
Qed.

Ltac step_run Hrun Hwf fr w :=
  simpl in Hrun;
  let Hnext := fresh "Hnext" in
  pose proof (resume_wellFormed fr w) as Hnext;
  destruct (resume_cases fr w Hwf)
    as [(p & d & Hp & Hd & E)|[(p & Hp & Hf & Hlt & E)|[(p & Hp & Hf & Hrc & E)
        |(Hp & Hlt & E)]]];
  rewrite E in Hrun, Hnext; clear E; simpl in Hnext.

Lemma run_ends others fuel : forall fr w w' ofr evs,
  wellFormed fr -> (stepsLeft fr <= fuel)%nat ->
  runAmid others fuel fr w = (w', ofr, evs) ->
  ofr = None
  /\ submissionInProgressRef (hook w') = None
  /\ isSubmitting (hook w') = false
  /\ exists s, last (snapshots evs) = Some s
       /\ currentSubmission (hook w') = Some s
       /\ (status s = StSuccess \/ status s = StError).
Proof.
  induction fuel as [|fuel IH]; intros fr w w' ofr evs Hwf Hfuel Hrun.
  { pose proof (stepsLeft_pos fr). lia. }
  step_run Hrun Hwf fr (others fuel w).
  - simplify_eq. repeat split; try done. eexists. repeat split; eauto.
  - destruct (runAmid others fuel _ _) as [[w2 fr2] evs2] eqn:Erest.
    simplify_eq.
    destruct (IH _ _ _ _ _ (Hnext _ Hwf eq_refl)
                ltac:(unfold stepsLeft in *; rewrite Hp in *; simpl;
                      unfold MAX_RETRIES in *; lia) Erest)
      as (-> & Href & Hbusy & s & Hl & Hcur & Hst).
    repeat split; try done. exists s. split; [|done].
    simpl. by rewrite !last_cons, Hl.
  - simplify_eq. repeat split; try done. eexists. repeat split; eauto.
  - destruct (runAmid others fuel _ _) as [[w2 fr2] evs2] eqn:Erest.
    simplify_eq.
    destruct (IH _ _ _ _ _ (Hnext _ Hwf eq_refl)
                ltac:(unfold stepsLeft in *; rewrite Hp in *; simpl;
                      unfold MAX_RETRIES in *; lia) Erest)
      as (-> & Href & Hbusy & s & Hl & Hcur & Hst).
    repeat split; try done. exists s. done.
Qed.

Lemma run_counters others fuel : forall fr w w' ofr evs,
  wellFormed fr ->
  runAmid others fuel fr w = (w', ofr, evs) ->
  Forall (fun s => (nextAttempt fr <= retryCount s <= MAX_RETRIES)%nat) (snapshots evs)
  /\ StronglySorted (fun a b => (retryCount a <= retryCount b)%nat) (snapshots evs).
Proof.
  induction fuel as [|fuel IH]; intros fr w w' ofr evs Hwf Hrun.
  { simpl in Hrun. simplify_eq. split; constructor. }
  pose proof Hwf as Hwf0. unfold wellFormed in Hwf0. unfold nextAttempt.
  step_run Hrun Hwf fr (others fuel w); rewrite Hp in *.
  - simplify_eq. simpl. split.
    + apply Forall_cons. split; [simpl; lia|constructor].
    + apply SSorted_cons; constructor.
  - destruct (runAmid others fuel _ _) as [[w2 fr2] evs2] eqn:Erest.
    simplify_eq.
    destruct (IH _ _ _ _ _ (Hnext _ Hwf eq_refl) Erest) as [Hall Hsort].
    unfold nextAttempt in Hall. simpl in *.
    split.
    + constructor; [simpl; lia|].
      eapply Forall_impl; [exact Hall|]. simpl. intros; lia.
    + constructor; [done|].
      eapply Forall_impl; [exact Hall|]. simpl. intros; lia.
  - simplify_eq. simpl. split.
    + apply Forall_cons. split; [simpl; lia|constructor].
    + apply SSorted_cons; constructor.
  - destruct (runAmid others fuel _ _) as [[w2 fr2] evs2] eqn:Erest.
    simplify_eq.
    destruct (IH _ _ _ _ _ (Hnext _ Hwf eq_refl) Erest) as [Hall Hsort].
    unfold nextAttempt in Hall. simpl in *. done.
Qed.

Lemma run_accounting others fuel : forall fr w w' evs,
  wellFormed fr ->
  runAmid others fuel fr w = (w', None, evs) ->
  match frAwaiting fr with
  | AwaitEndpoint _ =>
      length (outcomes evs) = S (invocations evs)
      /\ backoffs evs = replicate (invocations evs) RETRY_DELAY
  | AwaitRetryDelay =>
      S (length (outcomes evs)) = S (invocations evs)
      /\ RETRY_DELAY :: backoffs evs = replicate (invocations evs) RETRY_DELAY
  end.
Proof.
  induction fuel as [|fuel IH]; intros fr w w' evs Hwf Hrun; [done|].
  step_run Hrun Hwf fr (others fuel w); rewrite Hp.
  - by simplify_eq.
  - destruct (runAmid others fuel _ _) as [[w2 fr2] evs2] eqn:Erest.
    simplify_eq.
    pose proof (IH _ _ _ _ (Hnext _ Hwf eq_refl) Erest) as Hacc.
    simpl in Hacc. destruct Hacc as [Ho Hb].
    unfold invocations in *. simpl in *. split; [lia|done].
  - by simplify_eq.
  - destruct (runAmid others fuel _ _) as [[w2 fr2] evs2] eqn:Erest.
    simplify_eq.
    pose proof (IH _ _ _ _ (Hnext _ Hwf eq_refl) Erest) as Hacc.
    simpl in Hacc. destruct Hacc as [Ho Hb].
    unfold invocations in *. simpl in *. rewrite Hb. split; [lia|done].
Qed.

Lemma firstFrame_wellFormed formData (env : SubmitEnv ep) sv :
  wellFormed (firstFrame formData env sv).
Proof. unfold wellFormed. simpl. unfold MAX_RETRIES. lia. Qed.

Lemma run_identity others fuel : forall fr w w' ofr evs,
  wellFormed fr ->
  runAmid others fuel fr w = (w', ofr, evs) ->
  Forall (fun s => status s = StSuccess
                   \/ (sameIdentity (frPendingSubmission fr) s
                       /\ (status s = StRetry \/ status s = StError)))
         (snapshots evs).
Proof.
  induction fuel as [|fuel IH]; intros fr w w' ofr evs Hwf Hrun.
  { simpl in Hrun. simplify_eq. constructor. }
  simpl in Hrun.
  pose proof (resume_wellFormed fr (others fuel w)) as Hnext.
  destruct (resume_cases fr (others fuel w) Hwf)
    as [(p & d & Hp & Hd & E)|[(p & Hp & Hf & Hlt & E)|[(p & Hp & Hf & Hrc & E)
        |(Hp & Hlt & E)]]];
    rewrite E in Hrun, Hnext; clear E; simpl in Hnext.
  - simplify_eq. apply Forall_cons. split; [by left|constructor].
  - destruct (runAmid others fuel _ _) as [[w2 fr2] evs2] eqn:Erest.
    simplify_eq. apply IH in Erest; [|by apply Hnext].
    apply Forall_cons. split; [|exact Erest]. right. by repeat split; eauto.
  - simplify_eq. apply Forall_cons. split; [|constructor].
    right. by repeat split; eauto.
  - destruct (runAmid others fuel _ _) as [[w2 fr2] evs2] eqn:Erest.
    simplify_eq. apply IH in Erest; [|by apply Hnext]. exact Erest.
Qed.

Lemma successes_app evs1 evs2 :
  successes (evs1 ++ evs2) = successes evs1 ++ successes evs2.
Proof. unfold successes. by rewrite outcomes_app, omap_app. Qed.

Lemma resume_history fr w :
  id <$> submissions (hook (resume fr w).1.1)
  = reverse (id <$> successes (resume fr w).2) ++ (id <$> submissions (hook w))
  /\ (onlySucceeded (submissions (hook w)) ->
      onlySucceeded (submissions (hook (resume fr w).1.1))).
Proof.
  destruct (frAwaiting fr) as [p|] eqn:Hp.
  - rewrite (resume_endpoint _ _ _ Hp).
    destruct (react_cases fr (delivered p (service w)).2
                {| hook := hook w; service := (delivered p (service w)).1 |})
      as [(d & Hd & ->)|[(Hf & _ & ->)|(Hf & _ & ->)]];
      unfold successes; simpl.
    + rewrite Hd. simpl. split; [done|]. intros H. by constructor.
    + unfold failed in Hf. rewrite Hf. done.
    + unfold failed in Hf. rewrite Hf. done.
  - rewrite (resume_retry _ _ Hp).
    destruct (attempt_cases (withRetryCount fr (frRetryCount fr + 1)) w)
      as [(_ & ->)|(_ & ->)]; done.
Qed.

Lemma submit_history numberToString formData (env : SubmitEnv ep) w :
  submissions (hook (submit numberToString ep formData env w).1.1)
  = submissions (hook w)
  /\ successes (submit numberToString ep formData env w).2 = [].
Proof.
  destruct (submit_cases numberToString formData env w) as [(_ & ->)|(_ & ->)]; done.
Qed.

Lemma turn_history numberToString (t : Turn ep) (s : System ep) :
  exists added,
    observed (turn numberToString ep t s) = observed s ++ added
    /\ id <$> submissions (hook (world (turn numberToString ep t s)))
       = reverse (id <$> successes added) ++ (id <$> submissions (hook (world s)))
    /\ (onlySucceeded (submissions (hook (world s))) ->
        onlySucceeded (submissions (hook (world (turn numberToString ep t s))))).
Proof.
  destruct t as [formData env|i]; simpl.
  - destruct (submit_history numberToString formData env (world s)) as [Hs He].
    destruct (submit numberToString ep formData env (world s)) as [[w fr] evs].
    simpl in *. exists evs. rewrite He, Hs. done.
  - destruct (inFlight s !! i) as [fr|].
    + destruct (resume_history fr (world s)) as [Hs Hok].
      destruct (resume fr (world s)) as [[w fr'] evs]. simpl in *. by exists evs.
    + exists []. by rewrite app_nil_r.
Qed.

Lemma turns_history numberToString (ts : list (Turn ep)) : forall s : System ep,
  exists added,
    observed (turns numberToString ep ts s) = observed s ++ added
    /\ id <$> submissions (hook (world (turns numberToString ep ts s)))
       = reverse (id <$> successes added) ++ (id <$> submissions (hook (world s)))
    /\ (onlySucceeded (submissions (hook (world s))) ->
        onlySucceeded (submissions (hook (world (turns numberToString ep ts s))))).
Proof.
  induction ts as [|t ts IH]; intros s; simpl.
  - exists []. by rewrite app_nil_r.
  - destruct (turn_history numberToString t s) as (a1 & Ho1 & Hs1 & Hok1).
    destruct (IH (turn numberToString ep t s)) as (a2 & Ho2 & Hs2 & Hok2).
    exists (a1 ++ a2). split; [by rewrite Ho2, Ho1, app_assoc|]. split; [|auto].
    rewrite Hs2, Hs1, successes_app, fmap_app, reverse_app, app_assoc. done.
Qed.

(** A run follows the answers of the endpoint: when every answer it gets
    to attempt [j] is [script j], it goes on after each failure and stops
    at the first success or when the retries have run out. *)
Lemma run_follows_script_to_success others fuel :
  forall fr w w' ofr evs (script : nat -> Outcome) k d,
  wellFormed fr -> (stepsLeft fr <= fuel)%nat ->
  runAmid others fuel fr w = (w', ofr, evs) ->
  (forall j x, (nextAttempt fr + j <= k)%nat ->
     outcomes evs !! j = Some x -> x = script (nextAttempt fr + j)%nat) ->
  (forall j, (nextAttempt fr <= j < k)%nat -> failed (script j)) ->
  succeeded (script k) = Some d ->
  (nextAttempt fr <= k <= MAX_RETRIES)%nat ->
  ofr = None
  /\ outcomes evs = script <$> seq (nextAttempt fr) (S k - nextAttempt fr)
  /\ last (snapshots evs) = Some (successSnapshot d k)
  /\ currentSubmission (hook w') = Some (successSnapshot d k)
  /\ head (submissions (hook w')) = Some (successSnapshot d k)
  /\ ((forall n w0, submissions (hook (others n w0)) = submissions (hook w0)) ->
      submissions (hook w') = successSnapshot d k :: submissions (hook w))
  /\ submissionInProgressRef (hook w') = None
  /\ isSubmitting (hook w') = false.
Proof.
  induction fuel as [|fuel IH];
    intros fr w w' ofr evs script k d Hwf Hfuel Hrun Hagree Hfails Hd Hk.
  { pose proof (stepsLeft_pos fr). lia. }
  simpl in Hrun.
  pose proof (resume_wellFormed fr (others fuel w)) as Hnext.
  unfold nextAttempt in Hagree, Hfails, Hk |- *.
  destruct (resume_cases fr (others fuel w) Hwf)
    as [(p & d1 & Hp & Hd1 & E)|[(p & Hp & Hf & Hlt & E)|[(p & Hp & Hf & Hrc & E)
        |(Hp & Hlt & E)]]];
    rewrite E in Hrun, Hnext; clear E; simpl in Hnext; rewrite Hp in *.
  - simplify_eq. simpl in Hagree.
    pose proof (Hagree 0%nat _ ltac:(lia) eq_refl) as Ho. rewrite Nat.add_0_r in Ho.
    destruct (decide (k = frRetryCount fr)) as [Hkk|Hne].
    + subst k. rewrite <- Ho in Hd.
      assert (d1 = d) as -> by congruence.
      replace (S (frRetryCount fr) - frRetryCount fr)%nat with 1%nat by lia.
      simpl. rewrite Ho. repeat split; try done.
      intros Hsubs. by rewrite Hsubs.
    + assert (failed (script (frRetryCount fr))) as Hfl by (apply Hfails; lia).
      unfold failed in Hfl. rewrite <- Ho in Hfl.
      discriminate (eq_trans (eq_sym Hd1) Hfl).
  - destruct (runAmid others fuel _ _) as [[w2 fr2] evs2] eqn:Erest.
    simplify_eq. simpl in Hagree.
    pose proof (Hagree 0%nat _ ltac:(lia) eq_refl) as Ho. rewrite Nat.add_0_r in Ho.
    assert (frRetryCount fr <> k) as Hne.
    { intros E. unfold failed in Hf. rewrite Ho, E in Hf.
      discriminate (eq_trans (eq_sym Hd) Hf). }
    eapply (IH _ _ _ _ _ script k d) in Erest;
      [|by apply Hnext
       |unfold stepsLeft in *; rewrite Hp in *; simpl; unfold MAX_RETRIES in *; lia
       |unfold nextAttempt; simpl; intros j x Hb Hj;
        rewrite (Hagree (S j) x ltac:(lia) Hj); f_equal; lia
       |unfold nextAttempt; simpl; intros j Hj; apply Hfails; lia
       |exact Hd
       |unfold nextAttempt; simpl; lia].
    unfold nextAttempt in Erest. simpl in Erest.
    destruct Erest as (-> & Hout & Hlast & Hcur & Hhead & Hsubs & Href & Hbusy).
    split; [done|]. split.
    { simpl. rewrite Hout, Ho.
      replace (S k - frRetryCount fr)%nat with (S (S k - (frRetryCount fr + 1)))%nat by lia.
      simpl. by rewrite Nat.add_1_r. }
    split; [simpl; by rewrite !last_cons, Hlast|].
    repeat split; try done.
    intros Hkeep. rewrite (Hsubs Hkeep). simpl. by rewrite Hkeep.
  - simplify_eq. simpl in Hagree.
    pose proof (Hagree 0%nat _ ltac:(lia) eq_refl) as Ho. rewrite Nat.add_0_r in Ho.
    assert (frRetryCount fr = k) as <- by lia.
    unfold failed in Hf. rewrite Ho in Hf. discriminate (eq_trans (eq_sym Hd) Hf).
  - destruct (runAmid others fuel _ _) as [[w2 fr2] evs2] eqn:Erest.
    simplify_eq. simpl in Hagree.
    eapply (IH _ _ _ _ _ script k d) in Erest;
      [|by apply Hnext
       |unfold stepsLeft in *; rewrite Hp in *; simpl; unfold MAX_RETRIES in *; lia
       |unfold nextAttempt; simpl; exact Hagree
       |unfold nextAttempt; simpl; exact Hfails
       |exact Hd
       |unfold nextAttempt; simpl; lia].
    unfold nextAttempt in Erest. simpl in Erest.
    destruct Erest as (-> & Hout & Hlast & Hcur & Hhead & Hsubs & Href & Hbusy).
    repeat split; try done.
    intros Hkeep. rewrite (Hsubs Hkeep). simpl. by rewrite Hkeep.
Qed.

Lemma run_follows_script_to_exhaustion others fuel :
  forall fr w w' ofr evs (script : nat -> Outcome),
  wellFormed fr -> (stepsLeft fr <= fuel)%nat ->
  runAmid others fuel fr w = (w', ofr, evs) ->
  (forall j x, (nextAttempt fr + j <= MAX_RETRIES)%nat ->
     outcomes evs !! j = Some x -> x = script (nextAttempt fr + j)%nat) ->
  (forall j, (nextAttempt fr <= j <= MAX_RETRIES)%nat -> failed (script j)) ->
  ofr = None
  /\ outcomes evs
     = script <$> seq (nextAttempt fr) (S MAX_RETRIES - nextAttempt fr)
  /\ last (snapshots evs)
     = Some (failedSnapshot (frPendingSubmission fr) MAX_RETRIES
               (failedMessage (script MAX_RETRIES)))
  /\ currentSubmission (hook w')
     = Some (failedSnapshot (frPendingSubmission fr) MAX_RETRIES
               (failedMessage (script MAX_RETRIES)))
  /\ error (hook w')
     = Some ("Submission failed: " +:+ detail (script MAX_RETRIES))
  /\ ((forall n w0, submissions (hook (others n w0)) = submissions (hook w0)) ->
      submissions (hook w') = submissions (hook w))
  /\ submissionInProgressRef (hook w') = None
  /\ isSubmitting (hook w') = false.
Proof.
  induction fuel as [|fuel IH];
    intros fr w w' ofr evs script Hwf Hfuel Hrun Hagree Hfails.
  { pose proof (stepsLeft_pos fr). lia. }
  simpl in Hrun.
  pose proof (resume_wellFormed fr (others fuel w)) as Hnext.
  pose proof Hwf as Hwf0. unfold wellFormed in Hwf0.
  unfold nextAttempt in Hagree, Hfails |- *.
  destruct (resume_cases fr (others fuel w) Hwf)
    as [(p & d1 & Hp & Hd1 & E)|[(p & Hp & Hf & Hlt & E)|[(p & Hp & Hf & Hrc & E)
        |(Hp & Hlt & E)]]];
    rewrite E in Hrun, Hnext; clear E; simpl in Hnext; rewrite Hp in *.
  - simplify_eq. simpl in Hagree.
    pose proof (Hagree 0%nat _ ltac:(lia) eq_refl) as Ho. rewrite Nat.add_0_r in Ho.
    assert (failed (script (frRetryCount fr))) as Hfl by (apply Hfails; lia).
    unfold failed in Hfl. rewrite <- Ho in Hfl.
    discriminate (eq_trans (eq_sym Hd1) Hfl).
  - destruct (runAmid others fuel _ _) as [[w2 fr2] evs2] eqn:Erest.
    simplify_eq. simpl in Hagree.
    pose proof (Hagree 0%nat _ ltac:(lia) eq_refl) as Ho. rewrite Nat.add_0_r in Ho.
    eapply (IH _ _ _ _ _ script) in Erest;
      [|by apply Hnext
       |unfold stepsLeft in *; rewrite Hp in *; simpl; unfold MAX_RETRIES in *; lia
       |unfold nextAttempt; simpl; intros j x Hb Hj;
        rewrite (Hagree (S j) x ltac:(lia) Hj); f_equal; lia
       |unfold nextAttempt; simpl; intros j Hj; apply Hfails; lia].
    unfold nextAttempt in Erest. simpl in Erest.
    destruct Erest as (-> & Hout & Hlast & Hcur & Herr & Hsubs & Href & Hbusy).
    split; [done|]. split.
    { simpl. rewrite Hout, Ho.
      replace (S MAX_RETRIES - frRetryCount fr)%nat
        with (S (S MAX_RETRIES - (frRetryCount fr + 1)))%nat by lia.
      simpl. by rewrite Nat.add_1_r. }
    split; [simpl; by rewrite !last_cons, Hlast|].
    repeat split; try done.
    intros Hkeep. rewrite (Hsubs Hkeep). simpl. by rewrite Hkeep.
  - simplify_eq. simpl in Hagree.
    pose proof (Hagree 0%nat _ ltac:(lia) eq_refl) as Ho. rewrite Nat.add_0_r in Ho.
    rewrite Hrc in *. rewrite Ho.
    replace (S MAX_RETRIES - MAX_RETRIES)%nat with 1%nat by lia.
    simpl. repeat split; try done; intros Hkeep; by rewrite Hkeep.
  - destruct (runAmid others fuel _ _) as [[w2 fr2] evs2] eqn:Erest.
    simplify_eq. simpl in Hagree.
    eapply (IH _ _ _ _ _ script) in Erest;
      [|by apply Hnext
       |unfold stepsLeft in *; rewrite Hp in *; simpl; unfold MAX_RETRIES in *; lia
       |unfold nextAttempt; simpl; exact Hagree
       |unfold nextAttempt; simpl; exact Hfails].
    unfold nextAttempt in Erest. simpl in Erest.
    destruct Erest as (-> & Hout & Hlast & Hcur & Herr & Hsubs & Href & Hbusy).
    repeat split; try done.
    intros Hkeep. rewrite (Hsubs Hkeep). simpl. by rewrite Hkeep.
Qed.

Lemma answersInTurn_length formData key (entropy : nat -> epEntropy ep) n :
  forall attempt sv,
  length (answersInTurn formData key entropy attempt n sv).2 = n.
Proof.
  induction n as [|n IH]; intros attempt sv; [done|]. simpl.
  destruct (epCall ep formData key (entropy attempt) sv) as [sv1 p].
  destruct (delivered p sv1) as [sv2 o].
  specialize (IH (attempt + 1)%nat sv2).
  destruct (answersInTurn formData key entropy (attempt + 1) n sv2) as [sv3 os].
  simpl in *. by rewrite IH.
Qed.

(** A run with nothing else running sees what the endpoint answers to calls
    made in turn, as far as it goes. *)
Lemma quiet_run_answers fuel : forall fr w w' ofr evs n,
  wellFormed fr -> (stepsLeft fr <= fuel)%nat ->
  runAmid quiet fuel fr w = (w', ofr, evs) ->
  (forall j x y, outcomes evs !! j = Some x ->
                 (answersFrom fr n (service w)).2 !! j = Some y -> x = y)
  /\ (length (outcomes evs) = length (answersFrom fr n (service w)).2 ->
      service w' = (answersFrom fr n (service w)).1).
Proof.
  induction fuel as [|fuel IH]; intros fr w w' ofr evs n Hwf Hfuel Hrun.
  { pose proof (stepsLeft_pos fr). lia. }
  simpl in Hrun. unfold quiet in Hrun at 1.
  pose proof (resume_wellFormed fr w) as Hnext.
  destruct (resume_cases fr w Hwf)
    as [(p & d1 & Hp & Hd1 & E)|[(p & Hp & Hf & Hlt & E)|[(p & Hp & Hf & Hrc & E)
        |(Hp & Hlt & E)]]];
    rewrite E in Hrun, Hnext; clear E; simpl in Hnext;
    unfold answersFrom; rewrite Hp.
  - simplify_eq. simpl.
    pose proof (answersInTurn_length (frFormData fr) (frIdempotencyKey fr)
                  (frEntropy fr) n (frRetryCount fr + 1)
                  (delivered p (service w)).1) as Hlen.
    destruct (delivered p (service w)) as [sv2 o1]. simpl in *.
    destruct (answersInTurn _ _ _ _ n sv2) as [sv3 os] eqn:Eans. simpl in *.
    split.
    + intros [|j] x y; simpl; [congruence|done].
    + intros Hl. destruct n as [|n]; [by simplify_eq/=|lia].
  - destruct (runAmid quiet fuel _ _) as [[w2 fr2] evs2] eqn:Erest.
    simplify_eq.
    eapply (IH _ _ _ _ _ n) in Erest;
      [|by apply Hnext
       |unfold stepsLeft in *; rewrite Hp in *; simpl; unfold MAX_RETRIES in *; lia].
    unfold answersFrom in Erest. simpl in Erest.
    destruct (delivered p (service w)) as [sv2 o1]. simpl in *.
    destruct (answersInTurn _ _ _ _ n sv2) as [sv3 os] eqn:Eans. simpl in *.
    destruct Erest as [Hag Hsv]. split.
    + intros [|j] x y; simpl; [congruence|apply Hag].
    + intros Hl. apply Hsv. lia.
  - simplify_eq. simpl.
    pose proof (answersInTurn_length (frFormData fr) (frIdempotencyKey fr)
                  (frEntropy fr) n (frRetryCount fr + 1)
                  (delivered p (service w)).1) as Hlen.
    destruct (delivered p (service w)) as [sv2 o1]. simpl in *.
    destruct (answersInTurn _ _ _ _ n sv2) as [sv3 os] eqn:Eans. simpl in *.
    split.
    + intros [|j] x y; simpl; [congruence|done].
    + intros Hl. destruct n as [|n]; [by simplify_eq/=|lia].
  - destruct (runAmid quiet fuel _ _) as [[w2 fr2] evs2] eqn:Erest.
    simplify_eq. simpl.
    destruct n as [|n].
    + simpl. split; [done|].
      pose proof (run_ends quiet fuel _ _ _ _ _ (Hnext _ Hwf eq_refl)
                    ltac:(unfold stepsLeft in *; rewrite Hp in *; simpl;
                          unfold MAX_RETRIES in *; lia) Erest) as (-> & _).
      pose proof (run_accounting quiet fuel _ _ _ _ (Hnext _ Hwf eq_refl) Erest)
        as Hacc.
      simpl in Hacc. destruct Hacc as [Hacc _]. intros Hl. lia.
    + eapply (IH _ _ _ _ _ n) in Erest;
        [|by apply Hnext
         |unfold stepsLeft in *; rewrite Hp in *; simpl; unfold MAX_RETRIES in *; lia].
      unfold answersFrom in Erest. simpl in Erest. simpl.
      destruct (epCall ep (frFormData fr) (frIdempotencyKey fr)
                  (frEntropy fr (frRetryCount fr + 1)) (service w)) as [sv1 p].
      simpl in *. exact Erest.
Qed.

Lemma firstFrame_answers formData (env : SubmitEnv ep) (sv : epState ep) n :
  answersFrom (firstFrame formData env sv) n
    (epCall ep formData
       (MockApi.generateIdempotencyKey (email formData) (now env))
       (entropy env 0%nat) sv).1
  = answersInTurn formData
      (MockApi.generateIdempotencyKey (email formData) (now env))
      (entropy env) 0 (S n) sv.
Proof.
  unfold answersFrom, firstFrame. simpl.
  by destruct (epCall ep formData _ (entropy env 0%nat) sv).
Qed.

(** An accepted [submit] follows the answers of the endpoint up to the
    first success. *)
Lemma submit_follows_script_to_success numberToString others formData
    (env : SubmitEnv ep) w w' rest evs (script : nat -> Outcome) k d :
  submissionInProgressRef (hook w)
    <> Some (dedupeToken numberToString formData) ->
  submitAmid numberToString ep others formData env w = (w', rest, evs) ->
  (forall j x, (j <= k)%nat -> outcomes evs !! j = Some x -> x = script j) ->
  (forall j, (j < k)%nat -> failed (script j)) ->
  succeeded (script k) = Some d ->
  (k <= MAX_RETRIES)%nat ->
  rest = None
  /\ outcomes evs = script <$> seq 0 (S k)
  /\ invocations evs = S k
  /\ last (snapshots evs) = Some (successSnapshot d k)
  /\ currentSubmission (hook w') = Some (successSnapshot d k)
  /\ head (submissions (hook w')) = Some (successSnapshot d k)
  /\ ((forall n w0, submissions (hook (others n w0)) = submissions (hook w0)) ->
      submissions (hook w') = successSnapshot d k :: submissions (hook w))
  /\ submissionInProgressRef (hook w') = None
  /\ isSubmitting (hook w') = false.
Proof.
  intros Href Hrun Hagree Hfails Hd Hle.
  unfold submitAmid in Hrun.
  destruct (submit_cases numberToString formData env w)
    as [(Hin & _)|(_ & E)]; [done|]. rewrite E in Hrun; clear E.
  destruct (runAmid others enoughFuel _ _) as [[w2 fr2] evs2] eqn:Erun.
  simplify_eq. simpl in Hagree.
  pose proof (run_follows_script_to_success others enoughFuel _ _ _ _ _
                script k d (firstFrame_wellFormed formData env (service w))
                ltac:(cbv; lia) Erun) as Hsc.
  destruct Hsc as (-> & Hout & Hlast & Hcur & Hhead & Hsubs & Hcell & Hbusy).
  { exact Hagree. }
  { intros j Hj. apply Hfails. unfold nextAttempt in Hj. simpl in Hj. lia. }
  { exact Hd. }
  { unfold nextAttempt. simpl. lia. }
  change (outcomes evs2 = script <$> seq 0 (S k)) in Hout.
  pose proof (run_accounting others enoughFuel _ _ _ _
                (firstFrame_wellFormed formData env (service w)) Erun) as Hacc.
  simpl in Hacc. destruct Hacc as [Hacc _].
  rewrite Hout, length_fmap, length_seq in Hacc.
  split; [done|]. split; [exact Hout|].
  split.
  { change (S (invocations evs2) = S k). lia. }
  split; [simpl; by rewrite !last_cons, Hlast|].
  repeat split; try done.
Qed.

(** An accepted [submit] follows the answers of the endpoint until the
    retries have run out. *)
Lemma submit_follows_script_to_exhaustion numberToString others formData
    (env : SubmitEnv ep) w w' rest evs (script : nat -> Outcome) :
  submissionInProgressRef (hook w)
    <> Some (dedupeToken numberToString formData) ->
  submitAmid numberToString ep others formData env w = (w', rest, evs) ->
  (forall j x, (j <= MAX_RETRIES)%nat ->
     outcomes evs !! j = Some x -> x = script j) ->
  (forall j, (j <= MAX_RETRIES)%nat -> failed (script j)) ->
  rest = None
  /\ outcomes evs = script <$> seq 0 (S MAX_RETRIES)
  /\ invocations evs = S MAX_RETRIES
  /\ last (snapshots evs)
     = Some (failedSnapshot (pendingSubmissionOf formData env) MAX_RETRIES
               (failedMessage (script MAX_RETRIES)))
  /\ currentSubmission (hook w')
     = Some (failedSnapshot (pendingSubmissionOf formData env) MAX_RETRIES
               (failedMessage (script MAX_RETRIES)))
  /\ error (hook w')
     = Some ("Submission failed: " +:+ detail (script MAX_RETRIES))
  /\ ((forall n w0, submissions (hook (others n w0)) = submissions (hook w0)) ->
      submissions (hook w') = submissions (hook w))
  /\ submissionInProgressRef (hook w') = None
  /\ isSubmitting (hook w') = false.
Proof.
  intros Href Hrun Hagree Hfails.
  unfold submitAmid in Hrun.
  destruct (submit_cases numberToString formData env w)
    as [(Hin & _)|(_ & E)]; [done|]. rewrite E in Hrun; clear E.
  destruct (runAmid others enoughFuel _ _) as [[w2 fr2] evs2] eqn:Erun.
  simplify_eq. simpl in Hagree.
  pose proof (run_follows_script_to_exhaustion others enoughFuel _ _ _ _ _
                script (firstFrame_wellFormed formData env (service w))
                ltac:(cbv; lia) Erun) as Hsc.
  destruct Hsc as (-> & Hout & Hlast & Hcur & Herr & Hsubs & Hcell & Hbusy).
  { exact Hagree. }
  { intros j Hj. apply Hfails. lia. }
  change (outcomes evs2 = script <$> seq 0 (S MAX_RETRIES)) in Hout.
  pose proof (run_accounting others enoughFuel _ _ _ _
                (firstFrame_wellFormed formData env (service w)) Erun) as Hacc.
  simpl in Hacc. destruct Hacc as [Hacc _].
  rewrite Hout, length_fmap, length_seq in Hacc.
  split; [done|]. split; [exact Hout|].
  split.
  { change (S (invocations evs2) = S MAX_RETRIES). lia. }
  split; [simpl; by rewrite !last_cons, Hlast|].
  repeat split; try done.
Qed.

(** With nothing else running, an accepted [submit] sees what the endpoint
    answers to calls made in turn, as far as it goes, and leaves the
    service as these calls do. *)
Lemma submitAlone_answers numberToString formData (env : SubmitEnv ep)
    w w' rest evs n :
  submissionInProgressRef (hook w)
    <> Some (dedupeToken numberToString formData) ->
  submitAlone numberToString ep formData env w = (w', rest, evs) ->
  let asked :=
    answersInTurn formData
      (MockApi.generateIdempotencyKey (email formData) (now env))
      (entropy env) 0 (S n) (service w) in
  (forall j x y, outcomes evs !! j = Some x -> asked.2 !! j = Some y -> x = y)
  /\ (length (outcomes evs) = length asked.2 -> service w' = asked.1).
Proof.
  intros Href Hrun asked. unfold submitAlone, submitAmid in Hrun.
  destruct (submit_cases numberToString formData env w)
    as [(Hin & _)|(_ & E)]; [done|]. rewrite E in Hrun; clear E.
  destruct (runAmid quiet enoughFuel _ _) as [[w2 fr2] evs2] eqn:Erun.
  simplify_eq.
  pose proof (quiet_run_answers enoughFuel _ _ _ _ _ n
                (firstFrame_wellFormed formData env (service w))
                ltac:(cbv; lia) Erun) as Hq.
  simpl in Hq. rewrite firstFrame_answers in Hq. exact Hq.
Qed.

End AnyEndpoint.

Section MockEndpoint.
Implicit Types (fr : Frame mockApi) (w : World mockApi) (o : Outcome).

Lemma callMockApi_forms formData key env (store : gmap string Submission) :
  MockApi.onlySuccesses store ->
  MockApi.onlySuccesses (callMockApi formData key env store).1
  /\ match (callMockApi formData key env store).2 with
     | Ready o => mockOutcome o
     | Asleep _ => True
     end.
Proof.
  intros Hall. unfold callMockApi.
  destruct (submitToMockApi_cases formData key MockApi.noConfig env store)
    as [(c & Hc & ->)|[(_ & ->)|[(_ & s & _ & ->)|(_ & d & Hd & ->)]]]; simpl.
  - split; [done|]. right. exists c. pose proof (Hall key c Hc) as Hs. simpl in Hs.
    split; [done|]. by rewrite cachedResponse_success.
  - split; [done|]. by left.
  - done.
  - split; [by apply map_Forall_insert_2|]. right. by exists d.
Qed.

Lemma delivered_forms fr p w :
  frAwaiting fr = AwaitEndpoint p -> mockPending fr ->
  MockApi.onlySuccesses (service w) ->
  mockOutcome (delivered p (service w)).2
  /\ MockApi.onlySuccesses (delivered p (service w)).1.
Proof.
  unfold mockPending. intros Hp Hm Hall. rewrite Hp in Hm.
  destruct p as [o|s]; simpl; [done|].
  split; [|by apply map_Forall_insert_2].
  right. eexists. split; [|reflexivity]. done.
Qed.

Lemma mockOutcome_failed o :
  mockOutcome o -> failed o ->
  detail o = unavailable
  /\ failedMessage o = ("Failed after 3 retries: " +:+ unavailable)%string.
Proof.
  intros [->|(d & _ & ->)] Hf; [done|]. discriminate Hf.
Qed.

Lemma mock_run fuel : forall fr w w' ofr evs,
  wellFormed fr -> mockPending fr -> MockApi.onlySuccesses (service w) ->
  runAmid quiet fuel fr w = (w', ofr, evs) ->
  Forall mockOutcome (outcomes evs)
  /\ MockApi.onlySuccesses (service w')
  /\ (ofr = None ->
      forall s, currentSubmission (hook w') = Some s -> status s = StError ->
        errorMessage s = Some ("Failed after 3 retries: " +:+ unavailable)%string
        /\ error (hook w') = Some ("Submission failed: " +:+ unavailable)%string).
Proof.
  induction fuel as [|fuel IH]; intros fr w w' ofr evs Hwf Hm Hall Hrun.
  { simpl in Hrun. simplify_eq. split; [constructor|]. split; [done|]. done. }
  simpl in Hrun. unfold quiet in Hrun at 1.
  pose proof (resume_wellFormed fr w) as Hnext.
  destruct (resume_cases fr w Hwf)
    as [(p & d & Hp & Hd & E)|[(p & Hp & Hf & Hlt & E)|[(p & Hp & Hf & Hrc & E)
        |(Hp & Hlt & E)]]];
    rewrite E in Hrun, Hnext; clear E; simpl in Hnext.
  - destruct (delivered_forms fr p w Hp Hm Hall) as [Ho Hall'].
    simplify_eq. split; [by apply Forall_cons; split; [|constructor]|]. split; [done|].
    intros _ s [= <-] Hs. discriminate Hs.
  - destruct (delivered_forms fr p w Hp Hm Hall) as [Ho Hall'].
    destruct (runAmid quiet fuel _ _) as [[w2 fr2] evs2] eqn:Erest.
    simplify_eq.
    eapply IH in Erest; [|by apply Hnext|exact I|exact Hall'].
    destruct Erest as (Hos & Hall2 & Hend).
    split; [by constructor|]. done.
  - destruct (delivered_forms fr p w Hp Hm Hall) as [Ho Hall'].
    destruct (mockOutcome_failed _ Ho Hf) as [Hdet Hmsg].
    simplify_eq. split; [by apply Forall_cons; split; [|constructor]|]. split; [done|].
    intros _ s [= <-] _. split.
    + exact (f_equal Some Hmsg).
    + exact (f_equal (fun x => Some ("Submission failed: " +:+ x)%string) Hdet).
  - destruct (runAmid quiet fuel _ _) as [[w2 fr2] evs2] eqn:Erest.
    simplify_eq.
    destruct (callMockApi_forms (frFormData fr) (frIdempotencyKey fr)
                (frEntropy fr (frRetryCount fr + 1)) (service w) Hall)
      as [Hall' Hform].
    eapply IH in Erest; [exact Erest|by apply Hnext| |exact Hall'].
    unfold mockPending. simpl. exact Hform.
Qed.

Lemma run_ready_amid others fuel fr w w' evs o :
  frAwaiting fr = AwaitEndpoint (Ready o) ->
  runAmid others fuel fr w = (w', None, evs) ->
  exists rest, outcomes evs = o :: rest.
Proof.
  intros Hp Hrun. destruct fuel as [|fuel]; [done|].
  simpl in Hrun.
  rewrite (resume_endpoint _ _ _ Hp) in Hrun. simpl in Hrun.
  destruct (react_cases fr o {| hook := hook (others fuel w);
                                service := service (others fuel w) |})
    as [(d1 & Hd1 & E)|[(Hf1 & Hlt & E)|(Hf1 & Hge & E)]];
    rewrite E in Hrun; clear E.
  - simplify_eq. by eexists.
  - destruct (runAmid others fuel _ _) as [[w2 fr2] evs2].
    simplify_eq. by eexists.
  - simplify_eq. by eexists.
Qed.

Lemma call_then_failures_amid others fuel fr w w' evs formData key env
    (store : gmap string Submission) :
  frAwaiting fr
    = @AwaitEndpoint mockApi (callMockApi formData key env store).2 ->
  runAmid others fuel fr w = (w', None, evs) ->
  Forall failed (outcomes evs) ->
  (callMockApi formData key env store).1 = store.
Proof.
  intros Hp Hrun Hall.
  destruct (mockApi_call formData key env store)
    as [(E1 & _)|(d & E1 & E2)]; [done|].
  rewrite E2 in Hp.
  destruct (run_ready_amid _ _ _ _ _ _ _ Hp Hrun) as [rest Hrest].
  rewrite Hrest in Hall. apply Forall_cons in Hall as [Hf _]. done.
Qed.

(** The steps of a run that only sees failures leave the store alone:
    whatever the others preserve is preserved. *)
Lemma run_failures_keep_amid (others : nat -> World mockApi -> World mockApi) (P : gmap string Submission -> Prop) fuel :
  (forall n w0, P (storeOf w0) -> P (storeOf (others n w0))) ->
  forall fr w w' evs,
  runAmid others fuel fr w = (w', None, evs) ->
  Forall failed (outcomes evs) ->
  P (storeOf w) -> P (storeOf w').
Proof.
  unfold storeOf. intros Hothers.
  induction fuel as [|fuel IH]; intros fr w w' evs Hrun Hall HP; [done|].
  simpl in Hrun. specialize (Hothers fuel w HP).
  destruct (frAwaiting fr) as [p|] eqn:Hp.
  - rewrite (resume_endpoint _ _ _ Hp) in Hrun.
    pose proof (delivered_failed_keeps p (service (others fuel w))) as Hkeep.
    destruct (react_cases fr (delivered p (service (others fuel w))).2
                {| hook := hook (others fuel w);
                   service := (delivered p (service (others fuel w))).1 |})
      as [(d1 & Hd1 & E)|[(Hf1 & Hlt & E)|(Hf1 & Hge & E)]];
      rewrite E in Hrun; clear E.
    + simplify_eq. simpl in Hall. apply Forall_cons in Hall as [Hf _].
      discriminate (eq_trans (eq_sym Hd1) Hf).
    + destruct (runAmid others fuel _ _) as [[w2 fr2] evs2] eqn:Erest.
      simplify_eq. simpl in Hall. apply Forall_cons in Hall as [_ Hall].
      apply (IH _ _ _ _ Erest Hall).
      change (P (delivered p (service (others fuel w))).1).
      by rewrite (Hkeep Hf1).
    + simplify_eq.
      change (P (delivered p (service (others fuel w))).1).
      by rewrite (Hkeep Hf1).
  - rewrite (resume_retry _ _ Hp) in Hrun.
    destruct (attempt_cases (withRetryCount fr (frRetryCount fr + 1))
                (others fuel w))
      as [(_ & E)|(_ & E)]; rewrite E in Hrun; clear E; [|by simplify_eq].
    destruct (runAmid others fuel _ _) as [[w2 fr2] evs2] eqn:Erest.
    simplify_eq. simpl in Hall.
    apply (IH _ _ _ _ Erest Hall). simpl.
    erewrite call_then_failures_amid; [exact Hothers| |exact Erest|exact Hall].
    reflexivity.
Qed.

(** The record of the success a run ends with is in the store for the key
    of the run, in the sense [Q] that the others respect. *)
Lemma run_commits_amid (others : nat -> World mockApi -> World mockApi) (key : string)
    (Q : Submission -> gmap string Submission -> Prop) fuel :
  (forall st d, Q d (<[key := d]> st)) ->
  (forall st d, st !! key = Some d -> Q d st) ->
  (forall n w0 d, Q d (storeOf w0) -> Q d (storeOf (others n w0))) ->
  forall fr w w' ofr evs o d,
  frIdempotencyKey fr = key ->
  match frAwaiting fr with
  | AwaitEndpoint (Ready o') =>
      forall d', succeeded o' = Some d' -> Q d' (storeOf w)
  | AwaitEndpoint (Asleep s) => slKey s = key
  | AwaitRetryDelay => True
  end ->
  runAmid others fuel fr w = (w', ofr, evs) ->
  last (outcomes evs) = Some o -> succeeded o = Some d ->
  Q d (storeOf w').
Proof.
  unfold storeOf. intros Hins Hhit Hothers.
  induction fuel as [|fuel IH]; intros fr w w' ofr evs o d Hkey Hc Hrun Hlast Hd.
  { simpl in Hrun. by simplify_eq. }
  simpl in Hrun.
  destruct (frAwaiting fr) as [p|] eqn:Hp.
  - rewrite (resume_endpoint _ _ _ Hp) in Hrun.
    destruct (react_cases fr (delivered p (service (others fuel w))).2
                {| hook := hook (others fuel w);
                   service := (delivered p (service (others fuel w))).1 |})
      as [(d1 & Hd1 & E)|[(Hf1 & Hlt & E)|(Hf1 & Hge & E)]];
      rewrite E in Hrun; clear E.
    + simplify_eq/=. destruct p as [o'|s]; simpl in *.
      * apply Hothers. by apply Hc.
      * rewrite Hc. simplify_eq. apply Hins.
    + destruct (runAmid others fuel _ _) as [[w2 fr2] evs2] eqn:Erest.
      simplify_eq. simpl in Hlast. rewrite last_cons in Hlast.
      destruct (last (outcomes evs2)) as [o2|] eqn:Hl2.
      * simplify_eq. eapply (IH (withAwaiting fr AwaitRetryDelay));
          [done| |exact Erest|exact Hl2|exact Hd]. exact I.
      * simplify_eq. unfold failed in Hf1. discriminate (eq_trans (eq_sym Hd) Hf1).
    + simplify_eq/=. unfold failed in Hf1. discriminate (eq_trans (eq_sym Hd) Hf1).
  - rewrite (resume_retry _ _ Hp) in Hrun.
    destruct (attempt_cases (withRetryCount fr (frRetryCount fr + 1))
                (others fuel w))
      as [(_ & E)|(_ & E)]; rewrite E in Hrun; clear E; [|by simplify_eq].
    destruct (runAmid others fuel _ _) as [[w2 fr2] evs2] eqn:Erest.
    simplify_eq. simpl in Hlast.
    eapply (IH _ _ _ _ _ _ _ _ _ Erest Hlast Hd).
    Unshelve.
    + done.
    + simpl.
      destruct (mockApi_call (frFormData fr) (frIdempotencyKey fr)
                  (frEntropy fr (frRetryCount fr + 1)) (service (others fuel w)))
        as [(E1 & [(o' & E2 & Ho)|(s & E2 & Hs)])|(d' & E1 & E2)].
      * change (epCall mockApi) with callMockApi. rewrite E2, E1.
        intros d' Hd'. apply Hhit. by apply Ho.
      * change (epCall mockApi) with callMockApi. by rewrite E2.
      * change (epCall mockApi) with callMockApi. rewrite E2, E1.
        simpl. intros d'' [= <-]. apply Hins.
Qed.

(** The synchronous part of a [submit] writes to the store under its own
    key at most. *)
Lemma submit_keeps_stored numberToString formData (env : SubmitEnv mockApi)
    (w : World mockApi) key :
  key <> MockApi.generateIdempotencyKey (email formData) (now env) ->
  storeOf (submit numberToString mockApi formData env w).1.1 !! key
  = storeOf w !! key.
Proof.
  intros Hne.
  destruct (submit_cases numberToString formData env w)
    as [(_ & ->)|(_ & ->)]; [done|].
  unfold storeOf. simpl. change (epCall mockApi) with callMockApi.
  destruct (mockApi_call formData
              (MockApi.generateIdempotencyKey (email formData) (now env))
              (entropy env 0%nat) (service w))
    as [(E1 & _)|(d & E1 & _)]; rewrite E1; [done|].
  by apply lookup_insert_ne.
Qed.

(** No step of the hook removes a record from the store. *)
Lemma call_keeps_records formData key env (store : gmap string Submission) k :
  is_Some (store !! k) -> is_Some ((callMockApi formData key env store).1 !! k).
Proof.
  intros Hk.
  destruct (mockApi_call formData key env store)
    as [(E1 & _)|(d & E1 & _)]; rewrite E1; [done|].
  apply lookup_insert_is_Some'. by right.
Qed.

Lemma resume_keeps_records fr w k :
  is_Some (storeOf w !! k) -> is_Some (storeOf (resume fr w).1.1 !! k).
Proof.
  unfold storeOf. intros Hk.
  destruct (frAwaiting fr) as [p|] eqn:Hp.
  - rewrite (resume_endpoint _ _ _ Hp).
    assert (is_Some ((delivered (ep:=mockApi) p (service w)).1 !! k)) as Hdel.
    { destruct p as [o|s]; [done|].
      destruct (mockApi_wake s (service w)) as [d E].
      change (is_Some ((wakeMockApi s (service w)).1 !! k)). rewrite E. simpl.
      apply lookup_insert_is_Some'. by right. }
    destruct (react_cases fr (delivered p (service w)).2
                {| hook := hook w; service := (delivered p (service w)).1 |})
      as [(d1 & _ & ->)|[(_ & _ & ->)|(_ & _ & ->)]]; exact Hdel.
  - rewrite (resume_retry _ _ Hp).
    destruct (attempt_cases (withRetryCount fr (frRetryCount fr + 1)) w)
      as [(_ & ->)|(_ & ->)]; [|done].
    simpl. by apply call_keeps_records.
Qed.

Lemma submit_keeps_records numberToString formData (env : SubmitEnv mockApi) w k :
  is_Some (storeOf w !! k) ->
  is_Some (storeOf (submit numberToString mockApi formData env w).1.1 !! k).
Proof.
  unfold storeOf. intros Hk.
  destruct (submit_cases numberToString formData env w)
    as [(_ & ->)|(_ & ->)]; [done|].
  simpl. by apply call_keeps_records.
Qed.

Lemma turns_keep_records numberToString (ts : list (Turn mockApi)) k :
  forall s : System mockApi,
  is_Some (storeOf (world s) !! k) ->
  is_Some (storeOf (world (turns numberToString mockApi ts s)) !! k).
Proof.
  induction ts as [|t ts IH]; intros s Hk; [done|].
  simpl. apply IH.
  destruct t as [formData env|i]; simpl.
  - pose proof (submit_keeps_records numberToString formData env (world s) k Hk)
      as Hs.
    by destruct (submit numberToString mockApi formData env (world s))
      as [[w fr] evs].
  - destruct (inFlight s !! i) as [fr|]; [|done].
    pose proof (resume_keeps_records fr (world s) k Hk) as Hs.
    by destruct (resume fr (world s)) as [[w fr'] evs].
Qed.

End MockEndpoint.

End ExtraFacts.

(** * The claims about the service *)

Module ServiceClaims.
Import MockApi MockApiFacts Samples.

(** C1 (what the code does instead).  Under the default configuration a
    call whose key is not cached never answers with an immediate success,
    whatever it draws: a draw below [successRate] is below
    [successRate + failureRate] too, and is answered by the temporary
    failure. *)
Theorem default_config_has_no_immediate_success
    (formData : FormData) (key : string) (env : Entropy)
    (store : gmap string Submission) :
  store !! key = None ->
  ~ immediateSuccess (submitToMockApi formData key noConfig env store).2
  /\ ((random env < successRate DEFAULT_CONFIG)%Q ->
      submitToMockApi formData key noConfig env store
      = (store, Settled failure503)).
Proof.
  intros Hk. unfold submitToMockApi. rewrite Hk. cbv zeta.
  change (finalConfigOf noConfig) with DEFAULT_CONFIG.
  destruct (ltb (random env) (successRate DEFAULT_CONFIG)) eqn:Hs.
  - rewrite (ltb_widen _ _ (failureRate DEFAULT_CONFIG)); [|done|exact Hs].
    simpl. split; [discriminate|reflexivity].
  - split.
    + destruct (ltb (random env)
                 (successRate DEFAULT_CONFIG + failureRate DEFAULT_CONFIG));
        cbn; intros H; [discriminate H|exact H].
    + intros Hlt. apply ltb_lt in Hlt. congruence.
Qed.

Lemma default_config_has_no_immediate_success_witness :
  (random (sampleEntropy 0.2) < successRate DEFAULT_CONFIG)%Q
  /\ submitToMockApi sampleForm "a@x.com:1700000000000" noConfig
       (sampleEntropy 0.2) ∅
     = (∅, Settled failure503).
Proof.
  split; [reflexivity|].
  apply (default_config_has_no_immediate_success sampleForm _ (sampleEntropy 0.2) ∅);
    reflexivity.
Defined.

(** C2.  A call whose key is in the store answers from the cached record:
    [success] tells whether the record has status "success", [data] is the
    record, and [error] is the record's message when its status is "error"
    and is absent otherwise.  The call leaves the store as it is, registers
    no timer, and is the same whatever the form data, the configuration and
    the draws are. *)
Theorem cached_key_short_circuits
    (formData : FormData) (key : string) (config : PartialMockApiConfig)
    (env : Entropy) (store : gmap string Submission) (cached : Submission) :
  store !! key = Some cached ->
  submitToMockApi formData key config env store
    = (store, Settled (cachedResponse cached))
  /\ submitToMockApi_alone formData key config env store
    = (store, cachedResponse cached, None)
  /\ data (cachedResponse cached) = Some cached
  /\ (forall formData' config' env',
       submitToMockApi formData' key config' env' store
       = submitToMockApi formData key config env store)
  /\ submitToMockApi formData key config env store
     = (store,
        Settled {| success := match status cached with
                              | StSuccess => true
                              | _ => false
                              end;
                   data := Some cached;
                   error := match status cached with
                            | StError => errorMessage cached
                            | _ => None
                            end |}).
Proof.
  intros Hk. split; [by apply submitToMockApi_hit|]. split.
  - unfold submitToMockApi_alone. by rewrite (submitToMockApi_hit _ _ _ _ _ _ Hk).
  - split; [reflexivity|]. split.
    + intros. by rewrite !(submitToMockApi_hit _ _ _ _ _ _ Hk).
    + rewrite (submitToMockApi_hit _ _ _ _ _ _ Hk). unfold cachedResponse.
      by destruct (status cached).
Qed.

Lemma cached_key_short_circuits_witness :
  submitToMockApi sampleForm "k" noConfig (sampleEntropy 0.2) {[ "k" := sampleRecord ]}
  = ({[ "k" := sampleRecord ]},
     Settled {| success := true; data := Some sampleRecord; error := None |}).
Proof.
  apply (cached_key_short_circuits sampleForm "k" noConfig (sampleEntropy 0.2)
           {[ "k" := sampleRecord ]} sampleRecord).
  reflexivity.
Defined.

(** C3.  Whatever calls, timers and clears the service has served since it
    was loaded, every record in its store has status "success"; a call or a
    wake-up that changes the store answers with a success; a call for a key
    that is not stored which answers without success has left the store as
    it was and has answered exactly the temporary failure (no data, the
    message "Service temporarily unavailable"); and this is what a draw
    below [successRate] gets when [failureRate] is not negative. *)
Theorem only_successes_are_stored :
  (forall rqs : list Request,
     onlySuccesses (idempotencyStore (serveAll rqs boot)))
  /\ (forall formData key config env store store' p,
       submitToMockApi formData key config env store = (store', p) ->
       store' <> store ->
       exists d, status d = StSuccess /\ p = Settled (successOf d)
                 /\ store' = <[key := d]> store)
  /\ (forall s store,
       exists d, status d = StSuccess
                 /\ submitToMockApi_wake s store
                    = (<[slKey s := d]> store, successOf d))
  /\ (forall formData key config env store store' r,
       store !! key = None ->
       submitToMockApi formData key config env store = (store', Settled r) ->
       success r = false ->
       store' = store
       /\ r = {| success := false; data := None;
                 error := Some "Service temporarily unavailable"%string |})
  /\ (forall formData key config env store,
       store !! key = None ->
       (0 <= failureRate (finalConfigOf config))%Q ->
       (random env < successRate (finalConfigOf config))%Q ->
       submitToMockApi formData key config env store
       = (store,
          Settled {| success := false; data := None;
                     error := Some "Service temporarily unavailable"%string |})).
Proof.
  split; [|split; [|split; [|split]]].
  - intros rqs. apply serveAll_onlySuccesses. apply map_Forall_empty.
  - intros formData key config env store store' p Hcall Hne.
    destruct (submitToMockApi_cases formData key config env store)
      as [(c & _ & E)|[(_ & E)|[(_ & s & _ & E)|(_ & d & Hd & E)]]];
      rewrite E in Hcall; simplify_eq; eauto.
  - intros s store. eexists. split; [|reflexivity]. reflexivity.
  - intros formData key config env store store' r Hk Hcall Hr.
    destruct (submitToMockApi_cases formData key config env store)
      as [(c & Hc & E)|[(_ & E)|[(_ & s & _ & E)|(_ & d & Hd & E)]]];
      rewrite E in Hcall; simplify_eq; done.
  - intros formData key config env store Hk Hf Hlt.
    unfold submitToMockApi. rewrite Hk. cbv zeta.
    apply ltb_lt in Hlt. rewrite (ltb_widen _ _ _ Hf Hlt), Hlt. reflexivity.
Qed.

Lemma only_successes_are_stored_witness :
  (random (sampleEntropy 0.2) < successRate (finalConfigOf noConfig))%Q
  /\ submitToMockApi sampleForm "k" noConfig (sampleEntropy 0.2) ∅
     = (∅, Settled {| success := false; data := None;
                      error := Some "Service temporarily unavailable"%string |}).
Proof.
  split; [reflexivity|].
  apply (proj2 (proj2 (proj2 (proj2 only_successes_are_stored))));
    [reflexivity|vm_compute; discriminate|reflexivity].
Defined.

(** C4 (as amended).  The store lists at most one record per key, whatever
    the service has served.  A call that is made when its key already has a
    record leaves the store and the pending timers as they are, so it never
    writes to the store, then or later; hence, when each call is awaited
    before the next is made, a record that is in the store after some of the
    calls is still the record of its key after all of them.  A call that is
    already waiting in its artificial delay writes its own record under its
    key when it resumes, whatever the store holds by then. *)
Theorem stored_record_survives_later_calls :
  (forall (rqs : list Request) (sv : Service),
     NoDup (map_to_list (idempotencyStore (serveAll rqs sv))).*1)
  /\ (forall (sv : Service) formData key config env (r : Submission),
       idempotencyStore sv !! key = Some r ->
       serve (Call formData key config env) sv = (sv, Some (cachedResponse r)))
  /\ (forall (before after : list CallArgs) (store : gmap string Submission)
             (key : string) (r : Submission),
       callsInTurn before store !! key = Some r ->
       callsInTurn (before ++ after) store !! key = Some r)
  /\ (forall (s : Sleeper) (store : gmap string Submission),
       (submitToMockApi_wake s store).1 !! slKey s
       = Some (withStatus (slSubmission s) StSuccess)).
Proof.
  split; [|split; [|split]].
  - intros rqs sv. apply NoDup_fst_map_to_list.
  - intros sv formData key config env r Hr. simpl.
    rewrite (submitToMockApi_hit _ _ _ _ _ _ Hr). by destruct sv.
  - intros before after store key r Hr.
    unfold callsInTurn. rewrite fold_left_app.
    by apply callsInTurn_keeps.
  - intros s store. simpl. apply lookup_insert_eq.
Qed.

Lemma stored_record_survives_later_calls_witness :
  callsInTurn [sampleCall "k" 0.9] ∅ !! "k" = Some sampleRecord
  /\ callsInTurn ([sampleCall "k" 0.9] ++ [sampleCall "k" 0.8; sampleCall "j" 0.95]) ∅
      !! "k" = Some sampleRecord
  /\ serve (Call sampleForm "k" noConfig (sampleEntropy 0.8))
        {| idempotencyStore := {[ "k" := sampleRecord ]}; sleepers := [] |}
     = ({| idempotencyStore := {[ "k" := sampleRecord ]}; sleepers := [] |},
        Some (cachedResponse sampleRecord)).
Proof.
  split; [reflexivity|]. split.
  - apply (proj1 (proj2 (proj2 stored_record_survives_later_calls))). reflexivity.
  - apply (proj1 (proj2 stored_record_survives_later_calls)). reflexivity.
Defined.

(** C4 as stated fails when two calls with one key overlap.  Both miss the
    cache and both sleep; the first timer stores the record of the first
    call, and the second timer replaces it with the record of the second,
    later call. *)
Lemma overlapping_later_call_overwrites :
  let a := {| random := 0.9; idNow := 1; idTail := "a"; tsNow := 1;
              delayRandom := 0 |} in
  let b := {| random := 0.9; idNow := 2; idTail := "b"; tsNow := 2;
              delayRandom := 1 |} in
  let recordOf (n : Z) (i : string) :=
    {| sEmail := "a@x.com"; sAmount := 50; id := i; timestamp := n;
       status := StSuccess; retryCount := 0; errorMessage := None |} in
  let asleep := serveAll [Call sampleForm "k" noConfig a;
                          Call sampleForm "k" noConfig b] boot in
  let first := (serve (Fire 0) asleep).1 in
  let second := (serve (Fire 0) first).1 in
  idempotencyStore asleep !! "k" = None
  /\ slDelay <$> sleepers asleep = [5000%Q; 10000%Q]
  /\ idempotencyStore first !! "k" = Some (recordOf 1 "1-a")
  /\ idempotencyStore second !! "k" = Some (recordOf 2 "2-b")
  /\ recordOf 1 "1-a" <> recordOf 2 "2-b".
Proof.
  intros a b recordOf asleep first second.
  split; [reflexivity|]. split; [|split; [reflexivity|split; [reflexivity|discriminate]]].
  vm_compute. reflexivity.
Qed.

(** C10.  Whatever the service has served since it was loaded, a call that
    finds its key in the store answers with [success = true], with the
    cached record as data and with no error. *)
Theorem cached_response_is_a_success
    (rqs : list Request) (formData : FormData) (key : string)
    (config : PartialMockApiConfig) (env : Entropy) (cached : Submission) :
  let store := idempotencyStore (serveAll rqs boot) in
  store !! key = Some cached ->
  exists r, submitToMockApi formData key config env store = (store, Settled r)
            /\ success r = true /\ data r = Some cached /\ error r = None.
Proof.
  intros store Hk. exists (cachedResponse cached).
  split; [by apply submitToMockApi_hit|].
  pose proof (serveAll_onlySuccesses rqs boot (map_Forall_empty _)) as Hall.
  specialize (Hall key cached Hk). simpl in Hall.
  unfold cachedResponse. rewrite Hall. done.
Qed.

Lemma cached_response_is_a_success_witness :
  let rqs := [Call sampleForm "k" noConfig (sampleEntropy 0.9); Fire 0] in
  let store := idempotencyStore (serveAll rqs boot) in
  store !! "k" = Some sampleRecord
  /\ exists r, submitToMockApi sampleForm "k" noConfig (sampleEntropy 0.1) store
               = (store, Settled r)
               /\ success r = true /\ data r = Some sampleRecord /\ error r = None.
Proof.
  intros rqs store. split; [reflexivity|].
  apply (cached_response_is_a_success rqs sampleForm "k" noConfig
           (sampleEntropy 0.1) sampleRecord).
  reflexivity.
Defined.

End ServiceClaims.

(** * The claims about the hook *)

Module HookClaims.
Import UseSubmission MockApiFacts HookFacts ExtraFacts Samples.
Local Open Scope Z_scope.

(** C5.  [generateIdempotencyKey] maps [(identity, t)] to
    [identity ++ ":" ++ floor(t / 1000) * 1000]; for one identity, two
    timestamps in the same second give the same key, and two timestamps at
    least one second apart give different keys.  A [submit] for [identity]
    started at [t] passes this key, and no other, to the endpoint. *)
Theorem generateIdempotencyKey_by_second (identity : string) (t1 t2 : Z) :
  MockApi.generateIdempotencyKey identity t1
    = identity +:+ ":" +:+ pretty (t1 / 1000 * 1000)
  /\ (t1 / 1000 = t2 / 1000 ->
      MockApi.generateIdempotencyKey identity t1
      = MockApi.generateIdempotencyKey identity t2)
  /\ (1000 <= Z.abs (t1 - t2) ->
      MockApi.generateIdempotencyKey identity t1
      <> MockApi.generateIdempotencyKey identity t2)
  /\ (forall (numberToString : Q -> string) (ep : Endpoint)
             (others : nat -> World ep -> World ep)
             (formData : FormData) (env : SubmitEnv ep) (w : World ep),
       email formData = identity -> now env = t1 ->
       Forall (eq (MockApi.generateIdempotencyKey identity t1))
         (invokedKeys (submitAmid numberToString ep others formData env w).2)).
Proof.
  split; [reflexivity|]. split; [|split].
  - intros H. unfold MockApi.generateIdempotencyKey. by rewrite H.
  - intros Hfar Heq. unfold MockApi.generateIdempotencyKey in Heq.
    apply String.app_inj, String.app_inj in Heq.
    apply (inj pretty) in Heq.
    Z.div_mod_to_equations. lia.
  - intros numberToString ep others formData env w <- <-.
    unfold submitAmid.
    destruct (submit_cases numberToString formData env w)
      as [(_ & ->)|(_ & ->)]; [by constructor|].
    pose proof (runAmid_key others enoughFuel
                  (firstFrame formData env (service w))) as Hkeys.
    match goal with |- context [runAmid others enoughFuel ?fr ?w1] =>
      specialize (Hkeys w1); destruct (runAmid others enoughFuel fr w1)
        as [[w2 fr2] evs2] end.
    simpl in *. by constructor.
Qed.

Lemma generateIdempotencyKey_by_second_witness :
  1700000000123 / 1000 = 1700000000999 / 1000
  /\ 1000 <= Z.abs (1700000000123 - 1700000001123)
  /\ MockApi.generateIdempotencyKey "a@x.com" 1700000000123
     = MockApi.generateIdempotencyKey "a@x.com" 1700000000999
  /\ MockApi.generateIdempotencyKey "a@x.com" 1700000000123
     <> MockApi.generateIdempotencyKey "a@x.com" 1700000001123
  /\ Forall (eq (MockApi.generateIdempotencyKey "a@x.com" 1700000000123))
       (invokedKeys (submitAlone wholeNumberToString mockApi sampleForm
                       (sampleEnv [0.2; 0.9]%Q) freshWorld).2).
Proof.
  split; [reflexivity|]. split; [vm_compute; discriminate|].
  split; [|split].
  - apply (generateIdempotencyKey_by_second "a@x.com" 1700000000123 1700000000999).
    reflexivity.
  - apply (generateIdempotencyKey_by_second "a@x.com" 1700000000123 1700000001123).
    vm_compute. discriminate.
  - apply (generateIdempotencyKey_by_second "a@x.com" 1700000000123 0);
      reflexivity.
Defined.

(** C6.  With [MAX_RETRIES = 3], a call of [submit] has returned after at
    most seven resumptions and has called the endpoint at most
    [MAX_RETRIES + 1 = 4] times, whatever the endpoint answers and whatever
    the rest of the program does to the shared state between its
    resumptions. *)
Theorem submit_terminates_within_four_calls
    (numberToString : Q -> string) (ep : Endpoint)
    (others : nat -> World ep -> World ep)
    (formData : FormData) (env : SubmitEnv ep) (w : World ep) :
  MAX_RETRIES = 3%nat
  /\ (submitAmid numberToString ep others formData env w).1.2 = None
  /\ (invocations (submitAmid numberToString ep others formData env w).2
      <= MAX_RETRIES + 1)%nat.
Proof.
  split; [reflexivity|]. unfold submitAmid.
  destruct (submit_cases numberToString formData env w)
    as [(_ & ->)|(_ & ->)]; [split; [done|]; cbv; lia|].
  set (fr := firstFrame formData env (service w)).
  set (w1 := {| hook := _; service := _ |}).
  pose proof (runAmid_finishes others enoughFuel fr w1) as Hend.
  pose proof (runAmid_invocations others enoughFuel fr w1) as Hcalls.
  destruct (runAmid others enoughFuel fr w1) as [[w2 fr2] evs2]. simpl in *.
  split; [apply Hend; cbv; lia|].
  change (invocations (Shown (pendingSubmissionOf formData env)
            :: Invoked formData
                 (MockApi.generateIdempotencyKey (email formData) (now env))
            :: evs2))
    with (S (invocations evs2)).
  unfold callsLeft in Hcalls. simpl in Hcalls. lia.
Qed.

(** C7.  Take a [submit] that is not rejected as a duplicate.  With nothing
    else running: if the endpoint, called [k + 1] times in turn for the key
    of the call, answers [k] failures (responses that are not a success
    with data, or rejected promises) and then a success carrying the record
    [d], with [k <= MAX_RETRIES], then the call makes exactly these
    [k + 1] endpoint calls, sees these answers, leaves the service as they
    do, and returns; the last snapshot and the current submission are [d]
    with status "success" and [retryCount = k], that snapshot is put in
    front of [submissions], the in-progress cell is cleared and
    [isSubmitting] is false.  Whatever the rest of the program does to the
    shared state between the resumptions of the call: if [script j] is what
    the endpoint answers to attempt [j] whenever the call gets that far,
    with [script j] a failure for every [j < k] and [script k] a success
    carrying [d], then the call does get that far, sees exactly
    [script 0 .. script k], and ends in the same way, its snapshot at the
    head of [submissions].  With the service of this repository the store
    then holds one record for the idempotency key of the call: [d] when
    the others did not replace a record of that key meanwhile, and some
    record as long as they removed none, as is the case when the others
    are calls and resumptions of the hook. *)
Theorem success_on_attempt_k (numberToString : Q -> string) :
  (forall (ep : Endpoint) (formData : FormData) (env : SubmitEnv ep)
          (w : World ep) (after : epState ep) (fails : list Outcome)
          (r : ApiResponse) (d : Submission),
     submissionInProgressRef (hook w)
       <> Some (dedupeToken numberToString formData) ->
     answersInTurn formData
       (MockApi.generateIdempotencyKey (email formData) (now env))
       (entropy env) 0 (S (length fails)) (service w)
     = (after, fails ++ [Fulfilled r]) ->
     Forall (fun o => match o with
                      | Fulfilled r' => success r' = false \/ data r' = None
                      | Rejected _ => True
                      end) fails ->
     success r = true -> data r = Some d ->
     (length fails <= MAX_RETRIES)%nat ->
     let k := length fails in
     let s := {| sEmail := sEmail d; sAmount := sAmount d; id := id d;
                 timestamp := timestamp d; status := StSuccess;
                 retryCount := k; errorMessage := errorMessage d |} in
     let run := submitAlone numberToString ep formData env w in
     run.1.2 = None
     /\ outcomes run.2 = fails ++ [Fulfilled r]
     /\ invocations run.2 = S k
     /\ service run.1.1 = after
     /\ last (snapshots run.2) = Some s
     /\ currentSubmission (hook run.1.1) = Some s
     /\ submissions (hook run.1.1) = s :: submissions (hook w)
     /\ submissionInProgressRef (hook run.1.1) = None
     /\ isSubmitting (hook run.1.1) = false)
  /\ (forall (ep : Endpoint) (others : nat -> World ep -> World ep)
             (formData : FormData) (env : SubmitEnv ep)
             (w w' : World ep) (rest : option (Frame ep)) (evs : list Event)
             (script : nat -> Outcome) (k : nat) (r : ApiResponse)
             (d : Submission),
       submissionInProgressRef (hook w)
         <> Some (dedupeToken numberToString formData) ->
       submitAmid numberToString ep others formData env w = (w', rest, evs) ->
       (forall j o, (j <= k)%nat -> outcomes evs !! j = Some o -> o = script j) ->
       (forall j, (j < k)%nat ->
          match script j with
          | Fulfilled r' => success r' = false \/ data r' = None
          | Rejected _ => True
          end) ->
       script k = Fulfilled r -> success r = true -> data r = Some d ->
       (k <= MAX_RETRIES)%nat ->
       let s := {| sEmail := sEmail d; sAmount := sAmount d; id := id d;
                   timestamp := timestamp d; status := StSuccess;
                   retryCount := k; errorMessage := errorMessage d |} in
       rest = None
       /\ outcomes evs = script <$> seq 0 (S k)
       /\ invocations evs = S k
       /\ last (snapshots evs) = Some s
       /\ currentSubmission (hook w') = Some s
       /\ head (submissions (hook w')) = Some s
       /\ ((forall n w0,
              submissions (hook (others n w0)) = submissions (hook w0)) ->
           submissions (hook w') = s :: submissions (hook w))
       /\ submissionInProgressRef (hook w') = None
       /\ isSubmitting (hook w') = false)
  /\ (forall (others : nat -> World mockApi -> World mockApi)
             (formData : FormData) (env : SubmitEnv mockApi)
             (w w' : World mockApi) (rest : option (Frame mockApi))
             (evs : list Event)
             (script : nat -> Outcome) (k : nat) (r : ApiResponse)
             (d : Submission),
       submissionInProgressRef (hook w)
         <> Some (dedupeToken numberToString formData) ->
       submitAmid numberToString mockApi others formData env w = (w', rest, evs) ->
       (forall j o, (j <= k)%nat -> outcomes evs !! j = Some o -> o = script j) ->
       (forall j, (j < k)%nat ->
          match script j with
          | Fulfilled r' => success r' = false \/ data r' = None
          | Rejected _ => True
          end) ->
       script k = Fulfilled r -> success r = true -> data r = Some d ->
       (k <= MAX_RETRIES)%nat ->
       let key := MockApi.generateIdempotencyKey (email formData) (now env) in
       ((forall n w0 c, storeOf w0 !! key = Some c ->
                        storeOf (others n w0) !! key = Some c) ->
        storeOf w' !! key = Some d
        /\ forall d', (key, d') ∈ map_to_list (storeOf w') <-> d' = d)
       /\ ((forall n w0, is_Some (storeOf w0 !! key) ->
                         is_Some (storeOf (others n w0) !! key)) ->
           exists c, forall d', (key, d') ∈ map_to_list (storeOf w') <-> d' = c))
  /\ (forall (ts : list (Turn mockApi)) (s : System mockApi) (key : string),
       is_Some (storeOf (world s) !! key) ->
       is_Some (storeOf (world (turns numberToString mockApi ts s)) !! key)).
Proof.
  split; [|split; [|split; [|intros ts s key; by apply turns_keep_records]]].
  - intros ep formData env w after fails r d Href Hans Hfails Hs Hd Hle k s run.
    set (script := fun j => default (Rejected NotAnError)
                              ((fails ++ [Fulfilled r]) !! j)).
    pose proof (submitAlone_answers numberToString formData env w
                  run.1.1 run.1.2 run.2 k Href (step_eta run)) as Hasked.
    cbv zeta in Hasked. fold k in Hans. rewrite Hans in Hasked.
    destruct Hasked as [Hag Hsv]. simpl in Hag, Hsv.
    assert (length (fails ++ [Fulfilled r]) = S k) as Hlen
      by (rewrite length_app; simpl; unfold k; lia).
    destruct (submit_follows_script_to_success numberToString quiet formData
                env w run.1.1 run.1.2 run.2 script k d Href (step_eta run))
      as (Hrest & Hout & Hinv & Hlast & Hcur & _ & Hsubs & Hcell & Hbusy).
    { intros j x Hj Hx.
      destruct (lookup_lt_is_Some_2 (fails ++ [Fulfilled r]) j) as [y Hy];
        [lia|].
      unfold script. rewrite Hy. simpl. by apply (Hag j). }
    { intros j Hj. apply failed_spelled. unfold script.
      rewrite lookup_app_l by (fold k; lia).
      destruct (lookup_lt_is_Some_2 fails j) as [y Hy]; [fold k; lia|].
      rewrite Hy. simpl.
      by apply (proj1 (Forall_lookup _ fails) Hfails j y). }
    { unfold script, k. rewrite list_lookup_middle by done. simpl.
      by rewrite Hs. }
    { exact Hle. }
    assert (outcomes run.2 = fails ++ [Fulfilled r]) as Hout'.
    { rewrite Hout, <- Hlen. apply script_of_list. }
    split; [exact Hrest|]. split; [exact Hout'|]. split; [exact Hinv|].
    split; [apply Hsv; by rewrite Hout'|].
    split; [exact Hlast|]. split; [exact Hcur|].
    split; [by apply Hsubs|]. done.
  - intros ep others formData env w w' rest evs script k r d
           Href Hrun Hagree Hfails Hk Hs Hd Hle s.
    apply (submit_follows_script_to_success numberToString others formData
             env w w' rest evs script k d Href Hrun Hagree).
    + intros j Hj. by apply failed_spelled, Hfails.
    + rewrite Hk. simpl. by rewrite Hs.
    + exact Hle.
  - intros others formData env w w' rest evs script k r d
           Href Hrun Hagree Hfails Hk Hs Hd Hle key.
    assert (succeeded (script k) = Some d) as Hsd
      by (rewrite Hk; simpl; by rewrite Hs).
    destruct (submit_follows_script_to_success numberToString others formData
                env w w' rest evs script k d Href Hrun Hagree)
      as (_ & Hout & _); [|exact Hsd|exact Hle|].
    { intros j Hj. by apply failed_spelled, Hfails. }
    unfold submitAmid in Hrun.
    destruct (submit_cases numberToString formData env w)
      as [(Hin & _)|(_ & E)]; [done|]. rewrite E in Hrun; clear E.
    destruct (runAmid others enoughFuel _ _) as [[w2 fr2] evs2] eqn:Erun.
    simplify_eq.
    change (outcomes evs2 = script <$> seq 0 (S k)) in Hout.
    assert (last (outcomes evs2) = Some (script k)) as Hlast
      by (rewrite Hout; apply script_last).
    assert (forall Q : Submission -> gmap string Submission -> Prop,
      (forall st c, Q c (<[key := c]> st)) ->
      (forall st c, st !! key = Some c -> Q c st) ->
      (forall n w0 c, Q c (storeOf w0) -> Q c (storeOf (others n w0))) ->
      Q d (storeOf w')) as Hcommit.
    { intros Q Hins Hhit Hothers.
      eapply (run_commits_amid others key Q enoughFuel Hins Hhit Hothers);
        [|  |exact Erun|exact Hlast|exact Hsd]; [reflexivity|].
      simpl.
      destruct (mockApi_call formData key (entropy env 0%nat) (service w))
        as [(E1 & [(o' & E2 & Ho)|(s & E2 & Hsl)])|(d' & E1 & E2)];
        change (epCall mockApi) with callMockApi; fold key; rewrite E2, ?E1.
      - intros d' Hd'. apply Hhit. by apply Ho.
      - done.
      - simpl. intros d'' [= <-]. apply Hins. }
    split.
    + intros Hothers.
      assert (storeOf w' !! key = Some d) as Hin.
      { apply (Hcommit (fun c st => st !! key = Some c)).
        - intros st c. apply lookup_insert_eq.
        - done.
        - exact Hothers. }
      split; [exact Hin|].
      intros d'. rewrite elem_of_map_to_list, Hin. split; congruence.
    + intros Hothers.
      assert (is_Some (storeOf w' !! key)) as [c Hin].
      { apply (Hcommit (fun _ st => is_Some (st !! key))).
        - intros st c. rewrite lookup_insert_eq. by eexists.
        - intros st c Hc. by eexists.
        - intros n w0 _. apply Hothers. }
      exists c. intros d'. rewrite elem_of_map_to_list, Hin. split; congruence.
Qed.

Lemma success_on_attempt_k_witness :
  let d := {| sEmail := "a@x.com"; sAmount := 50;
              id := "1700000000502-k3j9x0a1b"; timestamp := 1700000000502;
              status := StSuccess; retryCount := 0; errorMessage := None |} in
  let s := {| sEmail := "a@x.com"; sAmount := 50;
              id := "1700000000502-k3j9x0a1b"; timestamp := 1700000000502;
              status := StSuccess; retryCount := 2; errorMessage := None |} in
  let answers := [Fulfilled MockApi.failure503; Fulfilled MockApi.failure503;
                  Fulfilled (MockApi.successOf d)] in
  let alone := submitAlone wholeNumberToString mockApi sampleForm
                 (sampleEnv [0.2; 0.3; 0.9]%Q) freshWorld in
  let amid := submitAmid wholeNumberToString mockApi overlapping sampleForm
                (sampleEnv [0.2; 0.3; 0.9]%Q) freshWorld in
  (answersInTurn sampleForm
     (MockApi.generateIdempotencyKey "a@x.com" 1700000000123)
     (entropy (sampleEnv [0.2; 0.3; 0.9]%Q)) 0 3 (service freshWorld)).2
  = answers
  /\ outcomes alone.2 = answers
  /\ currentSubmission (hook alone.1.1) = Some s
  /\ invocations amid.2 = 3%nat
  /\ currentSubmission (hook amid.1.1) = Some s
  /\ storeOf amid.1.1 !! "a@x.com:1700000000000" = Some d.
Proof.
  intros d s answers alone amid.
  set (script := fun j => nth j answers (Rejected NotAnError)).
  set (asked := answersInTurn sampleForm
                  (MockApi.generateIdempotencyKey "a@x.com" 1700000000123)
                  (entropy (sampleEnv [0.2; 0.3; 0.9]%Q)) 0 3
                  (service freshWorld)).
  assert (asked.2 = answers) as Hasked by (vm_compute; reflexivity).
  assert (asked
          = (asked.1, [Fulfilled MockApi.failure503; Fulfilled MockApi.failure503]
                      ++ [Fulfilled (MockApi.successOf d)])) as Hans
    by (rewrite (surjective_pairing asked) at 1; by rewrite Hasked).
  assert (Forall (fun o => match o with
                           | Fulfilled r' => success r' = false \/ data r' = None
                           | Rejected _ => True
                           end)
            [Fulfilled MockApi.failure503; Fulfilled MockApi.failure503])
    as Hfailed by (repeat (apply Forall_cons; split; [by left|]); constructor).
  assert (submissionInProgressRef (hook freshWorld)
          <> Some (dedupeToken wholeNumberToString sampleForm)) as Href
    by discriminate.
  pose proof (proj1 (success_on_attempt_k wholeNumberToString)
                mockApi sampleForm (sampleEnv [0.2; 0.3; 0.9]%Q) freshWorld
                asked.1
                [Fulfilled MockApi.failure503; Fulfilled MockApi.failure503]
                (MockApi.successOf d) d Href Hans Hfailed eq_refl eq_refl
                ltac:(unfold MAX_RETRIES; simpl; lia)) as Halone.
  assert (outcomes amid.2 = answers) as Hout by (vm_compute; reflexivity).
  assert (forall j o, (j <= 2)%nat -> outcomes amid.2 !! j = Some o -> o = script j)
    as Hagree.
  { rewrite Hout. intros [|[|[|j]]] o _; simpl; intros [= <-]; reflexivity. }
  assert (forall j, (j < 2)%nat ->
            match script j with
            | Fulfilled r' => success r' = false \/ data r' = None
            | Rejected _ => True
            end) as Hfails.
  { intros [|[|j]] Hj; simpl; [by left|by left|lia]. }
  pose proof (proj1 (proj2 (success_on_attempt_k wholeNumberToString))
                mockApi overlapping sampleForm (sampleEnv [0.2; 0.3; 0.9]%Q)
                freshWorld amid.1.1 amid.1.2 amid.2 script 2%nat _ d
                Href (step_eta amid) Hagree Hfails eq_refl eq_refl eq_refl
                ltac:(unfold MAX_RETRIES; lia)) as Hhook.
  pose proof (proj1 (proj2 (proj2 (success_on_attempt_k wholeNumberToString)))
                overlapping sampleForm (sampleEnv [0.2; 0.3; 0.9]%Q)
                freshWorld amid.1.1 amid.1.2 amid.2 script 2%nat _ d
                Href (step_eta amid) Hagree Hfails eq_refl eq_refl eq_refl
                ltac:(unfold MAX_RETRIES; lia)) as Hstore.
  split; [exact Hasked|]. split; [apply Halone|]. split; [apply Halone|].
  split; [apply Hhook|]. split; [apply Hhook|].
  apply Hstore.
  intros n w0 c Hc. unfold overlapping.
  destruct (n =? 5)%nat; [|exact Hc].
  rewrite submit_keeps_stored; [exact Hc|]. by vm_compute.
Defined.

(** C8.  Take a [submit] that is not rejected as a duplicate.  With nothing
    else running: if the endpoint, called [MAX_RETRIES + 1] times in turn
    for the key of the call, answers failures only, then the call makes
    exactly these four endpoint calls, sees these answers, leaves the
    service as they do, and returns; the last snapshot and the current
    submission are the pending submission (its email, amount, id and
    timestamp) with status "error", [retryCount = 3] and the message
    "Failed after 3 retries: " followed by the error text of the last
    response, or by "Unknown error occurred" when that response has none
    or an empty one; when the last promise was rejected the message is
    "Error after 3 retries: " followed by the message of the thrown Error,
    or by "Network error" for any other thrown value.  The error cell is
    "Submission failed: " followed by the same text, the in-progress cell
    is cleared, [isSubmitting] is false, and [submissions] is as it was.
    Whatever the rest of the program does to the shared state between the
    resumptions of the call: if [script j] is what the endpoint answers to
    attempt [j] whenever the call gets that far, and [script j] is a
    failure for every [j <= MAX_RETRIES], then the call does make all four
    endpoint calls and ends in the same way.  With the service of this
    repository the steps of the call leave the store alone: every property
    of the store that the others preserve still holds after the call; so
    no record is committed for the key of the call unless the others
    commit one, and the store is the same when the others leave it
    alone. *)
Theorem exhausted_retries_fail (numberToString : Q -> string) :
  (forall (ep : Endpoint) (formData : FormData) (env : SubmitEnv ep)
          (w : World ep) (after : epState ep) (answers : list Outcome)
          (lastFailure : Outcome),
     submissionInProgressRef (hook w)
       <> Some (dedupeToken numberToString formData) ->
     answersInTurn formData
       (MockApi.generateIdempotencyKey (email formData) (now env))
       (entropy env) 0 (MAX_RETRIES + 1) (service w)
     = (after, answers) ->
     Forall (fun o => match o with
                      | Fulfilled r => success r = false \/ data r = None
                      | Rejected _ => True
                      end) answers ->
     last answers = Some lastFailure ->
     let text :=
       match lastFailure with
       | Fulfilled r =>
           match Types.error r with
           | Some e => if decide (e = "") then "Unknown error occurred" else e
           | None => "Unknown error occurred"
           end
       | Rejected (ErrorWith message) => message
       | Rejected NotAnError => "Network error"
       end%string in
     let message :=
       (match lastFailure with
        | Fulfilled _ => "Failed after 3 retries: "
        | Rejected _ => "Error after 3 retries: "
        end +:+ text)%string in
     let s := {| sEmail := email formData; sAmount := amount formData;
                 id := pretty (now env) +:+ "-" +:+ idTail env;
                 timestamp := now env; status := StError;
                 retryCount := 3; errorMessage := Some message |} in
     let run := submitAlone numberToString ep formData env w in
     run.1.2 = None
     /\ outcomes run.2 = answers
     /\ invocations run.2 = 4%nat
     /\ service run.1.1 = after
     /\ last (snapshots run.2) = Some s
     /\ currentSubmission (hook run.1.1) = Some s
     /\ error (hook run.1.1) = Some ("Submission failed: " +:+ text)
     /\ submissionInProgressRef (hook run.1.1) = None
     /\ isSubmitting (hook run.1.1) = false
     /\ submissions (hook run.1.1) = submissions (hook w))
  /\ (forall (ep : Endpoint) (others : nat -> World ep -> World ep)
             (formData : FormData) (env : SubmitEnv ep)
             (w w' : World ep) (rest : option (Frame ep)) (evs : list Event)
             (script : nat -> Outcome),
       submissionInProgressRef (hook w)
         <> Some (dedupeToken numberToString formData) ->
       submitAmid numberToString ep others formData env w = (w', rest, evs) ->
       (forall j o, (j <= MAX_RETRIES)%nat ->
          outcomes evs !! j = Some o -> o = script j) ->
       (forall j, (j <= MAX_RETRIES)%nat ->
          match script j with
          | Fulfilled r => success r = false \/ data r = None
          | Rejected _ => True
          end) ->
       let text :=
         match script MAX_RETRIES with
         | Fulfilled r =>
             match Types.error r with
             | Some e => if decide (e = "") then "Unknown error occurred" else e
             | None => "Unknown error occurred"
             end
         | Rejected (ErrorWith message) => message
         | Rejected NotAnError => "Network error"
         end%string in
       let message :=
         (match script MAX_RETRIES with
          | Fulfilled _ => "Failed after 3 retries: "
          | Rejected _ => "Error after 3 retries: "
          end +:+ text)%string in
       let s := {| sEmail := email formData; sAmount := amount formData;
                   id := pretty (now env) +:+ "-" +:+ idTail env;
                   timestamp := now env; status := StError;
                   retryCount := 3; errorMessage := Some message |} in
       rest = None
       /\ outcomes evs = script <$> seq 0 4
       /\ invocations evs = 4%nat
       /\ last (snapshots evs) = Some s
       /\ currentSubmission (hook w') = Some s
       /\ error (hook w') = Some ("Submission failed: " +:+ text)
       /\ submissionInProgressRef (hook w') = None
       /\ isSubmitting (hook w') = false
       /\ ((forall n w0,
              submissions (hook (others n w0)) = submissions (hook w0)) ->
           submissions (hook w') = submissions (hook w)))
  /\ (forall (others : nat -> World mockApi -> World mockApi)
             (formData : FormData) (env : SubmitEnv mockApi)
             (w w' : World mockApi) (rest : option (Frame mockApi))
             (evs : list Event) (script : nat -> Outcome),
       submissionInProgressRef (hook w)
         <> Some (dedupeToken numberToString formData) ->
       submitAmid numberToString mockApi others formData env w = (w', rest, evs) ->
       (forall j o, (j <= MAX_RETRIES)%nat ->
          outcomes evs !! j = Some o -> o = script j) ->
       (forall j, (j <= MAX_RETRIES)%nat ->
          match script j with
          | Fulfilled r => success r = false \/ data r = None
          | Rejected _ => True
          end) ->
       let key := MockApi.generateIdempotencyKey (email formData) (now env) in
       (forall P : gmap string Submission -> Prop,
          (forall n w0, P (storeOf w0) -> P (storeOf (others n w0))) ->
          P (storeOf w) -> P (storeOf w'))
       /\ ((forall n w0, storeOf w0 !! key = None ->
                         storeOf (others n w0) !! key = None) ->
           storeOf w !! key = None -> storeOf w' !! key = None)
       /\ ((forall n w0, storeOf (others n w0) = storeOf w0) ->
           storeOf w' = storeOf w)).
Proof.
  split; [|split].
  - intros ep formData env w after answers lastFailure
           Href Hans Hfails Hlast text message s run.
    set (script := fun j => default (Rejected NotAnError) (answers !! j)).
    pose proof (submitAlone_answers numberToString formData env w
                  run.1.1 run.1.2 run.2 MAX_RETRIES Href (step_eta run))
      as Hasked.
    cbv zeta in Hasked.
    replace (S MAX_RETRIES) with (MAX_RETRIES + 1)%nat in Hasked by done.
    rewrite Hans in Hasked. destruct Hasked as [Hag Hsv]. simpl in Hag, Hsv.
    assert (length answers = S MAX_RETRIES) as Hlen.
    { pose proof (answersInTurn_length formData
                    (MockApi.generateIdempotencyKey (email formData) (now env))
                    (entropy env) (MAX_RETRIES + 1) 0 (service w)) as Hl.
      by rewrite Hans in Hl. }
    assert (script MAX_RETRIES = lastFailure) as Hscript.
    { unfold script. rewrite last_lookup, Hlen in Hlast. simpl in Hlast.
      by rewrite Hlast. }
    destruct (submit_follows_script_to_exhaustion numberToString quiet formData
                env w run.1.1 run.1.2 run.2 script Href (step_eta run))
      as (Hrest & Hout & Hinv & Hsnap & Hcur & Herr & Hsubs & Hcell & Hbusy).
    { intros j x Hj Hx.
      destruct (lookup_lt_is_Some_2 answers j) as [y Hy]; [lia|].
      unfold script. rewrite Hy. simpl. by apply (Hag j). }
    { intros j Hj. apply failed_spelled. unfold script.
      destruct (lookup_lt_is_Some_2 answers j) as [y Hy]; [lia|].
      rewrite Hy. simpl.
      by apply (proj1 (Forall_lookup _ answers) Hfails j y). }
    assert (outcomes run.2 = answers) as Hout'.
    { rewrite Hout, <- Hlen. apply script_of_list. }
    rewrite Hscript, failedMessage_spelled, detail_spelled in Hsnap, Hcur.
    rewrite Hscript, detail_spelled in Herr.
    split; [exact Hrest|]. split; [exact Hout'|]. split; [exact Hinv|].
    split; [apply Hsv; by rewrite Hout'|].
    split; [exact Hsnap|]. split; [exact Hcur|]. split; [exact Herr|].
    split; [exact Hcell|]. split; [exact Hbusy|]. by apply Hsubs.
  - intros ep others formData env w w' rest evs script
           Href Hrun Hagree Hfails text message s.
    destruct (submit_follows_script_to_exhaustion numberToString others formData
                env w w' rest evs script Href Hrun Hagree)
      as (Hrest & Hout & Hinv & Hsnap & Hcur & Herr & Hsubs & Hcell & Hbusy).
    { intros j Hj. by apply failed_spelled, Hfails. }
    rewrite failedMessage_spelled, detail_spelled in Hsnap, Hcur.
    rewrite detail_spelled in Herr.
    done.
  - intros others formData env w w' rest evs script
           Href Hrun Hagree Hfails key.
    destruct (submit_follows_script_to_exhaustion numberToString others formData
                env w w' rest evs script Href Hrun Hagree)
      as (-> & Hout & _).
    { intros j Hj. by apply failed_spelled, Hfails. }
    unfold submitAmid in Hrun.
    destruct (submit_cases numberToString formData env w)
      as [(Hin & _)|(_ & E)]; [done|]. rewrite E in Hrun; clear E.
    destruct (runAmid others enoughFuel _ _) as [[w2 fr2] evs2] eqn:Erun.
    simplify_eq.
    change (outcomes evs2 = script <$> seq 0 4) in Hout.
    assert (Forall failed (outcomes evs2)) as Hall.
    { rewrite Hout. simpl.
      repeat (apply Forall_cons; split;
              [apply failed_spelled, Hfails; unfold MAX_RETRIES; lia|]).
      constructor. }
    assert (forall P : gmap string Submission -> Prop,
              (forall n w0, P (storeOf w0) -> P (storeOf (others n w0))) ->
              P (storeOf w) -> P (storeOf w')) as Hkeep.
    { intros P Hothers HP.
      apply (run_failures_keep_amid others P enoughFuel Hothers _ _ _ _ Erun Hall).
      unfold storeOf. simpl.
      change (epCall mockApi) with callMockApi.
      erewrite call_then_failures_amid; [exact HP| |exact Erun|exact Hall].
      reflexivity. }
    split; [exact Hkeep|]. split.
    + intros Hothers. apply (Hkeep (fun st => st !! key = None)). exact Hothers.
    + intros Hothers. apply (Hkeep (fun st => st = storeOf w)); [|done].
      intros n w0 <-. apply Hothers.
Qed.

Lemma exhausted_retries_fail_witness :
  let s := {| sEmail := "a@x.com"; sAmount := 50;
              id := "1700000000123-p0o9i8u7y"; timestamp := 1700000000123;
              status := StError; retryCount := 3;
              errorMessage :=
                Some "Failed after 3 retries: Service temporarily unavailable" |} in
  let answers := replicate 4 (Fulfilled MockApi.failure503) in
  let alone := submitAlone wholeNumberToString mockApi sampleForm
                 (sampleEnv [0.1; 0.3; 0.39; 0.2]%Q) freshWorld in
  let amid := submitAmid wholeNumberToString mockApi overlapping sampleForm
                (sampleEnv [0.1; 0.3; 0.39; 0.2]%Q) freshWorld in
  (answersInTurn sampleForm
     (MockApi.generateIdempotencyKey "a@x.com" 1700000000123)
     (entropy (sampleEnv [0.1; 0.3; 0.39; 0.2]%Q)) 0 4 (service freshWorld)).2
  = answers
  /\ outcomes alone.2 = answers
  /\ currentSubmission (hook alone.1.1) = Some s
  /\ invocations amid.2 = 4%nat
  /\ currentSubmission (hook amid.1.1) = Some s
  /\ error (hook amid.1.1)
     = Some "Submission failed: Service temporarily unavailable"%string
  /\ storeOf amid.1.1 !! "a@x.com:1700000000000" = None.
Proof.
  intros s answers alone amid.
  set (script := fun _ : nat => Fulfilled MockApi.failure503).
  set (asked := answersInTurn sampleForm
                  (MockApi.generateIdempotencyKey "a@x.com" 1700000000123)
                  (entropy (sampleEnv [0.1; 0.3; 0.39; 0.2]%Q)) 0
                  (MAX_RETRIES + 1) (service freshWorld)).
  assert (asked.2 = answers) as Hasked by (vm_compute; reflexivity).
  assert (asked = (asked.1, answers)) as Hans
    by (rewrite (surjective_pairing asked) at 1; by rewrite Hasked).
  assert (Forall (fun o => match o with
                           | Fulfilled r => success r = false \/ data r = None
                           | Rejected _ => True
                           end) answers)
    as Hfailed by (repeat (apply Forall_cons; split; [by left|]); constructor).
  assert (submissionInProgressRef (hook freshWorld)
          <> Some (dedupeToken wholeNumberToString sampleForm)) as Href
    by discriminate.
  pose proof (proj1 (exhausted_retries_fail wholeNumberToString)
                mockApi sampleForm (sampleEnv [0.1; 0.3; 0.39; 0.2]%Q)
                freshWorld asked.1 answers (Fulfilled MockApi.failure503)
                Href Hans Hfailed eq_refl) as Halone.
  assert (outcomes amid.2 = answers) as Hout by (vm_compute; reflexivity).
  assert (forall j o, (j <= MAX_RETRIES)%nat ->
            outcomes amid.2 !! j = Some o -> o = script j) as Hagree.
  { rewrite Hout. intros [|[|[|[|j]]]] o _; simpl; intros [= <-]; reflexivity. }
  assert (forall j, (j <= MAX_RETRIES)%nat ->
            match script j with
            | Fulfilled r => success r = false \/ data r = None
            | Rejected _ => True
            end) as Hfails.
  { intros j _. simpl. by left. }
  pose proof (proj1 (proj2 (exhausted_retries_fail wholeNumberToString))
                mockApi overlapping sampleForm
                (sampleEnv [0.1; 0.3; 0.39; 0.2]%Q)
                freshWorld amid.1.1 amid.1.2 amid.2 script
                Href (step_eta amid) Hagree Hfails) as Hhook.
  pose proof (proj2 (proj2 (exhausted_retries_fail wholeNumberToString))
                overlapping sampleForm (sampleEnv [0.1; 0.3; 0.39; 0.2]%Q)
                freshWorld amid.1.1 amid.1.2 amid.2 script
                Href (step_eta amid) Hagree Hfails) as Hstore.
  split; [exact Hasked|]. split; [apply Halone|]. split; [apply Halone|].
  split; [apply Hhook|]. split; [apply Hhook|]. split; [apply Hhook|].
  apply Hstore; [|reflexivity].
  intros n w0 Hc. unfold overlapping.
  destruct (n =? 5)%nat; [|exact Hc].
  rewrite submit_keeps_stored; [exact Hc|]. by vm_compute.
Defined.




End HookClaims.

(** * Further properties of the service *)

Module ServiceExtras.
Import MockApi MockApiFacts ExtraFacts Samples.
Local Open Scope Z_scope.

(** X1.  Two idempotency keys are equal exactly when they are derived from
    the same identity and from timestamps of the same second: different
    identities never share a key, whatever characters they contain. *)
Theorem generateIdempotencyKey_inj (e1 e2 : string) (t1 t2 : Z) :
  generateIdempotencyKey e1 t1 = generateIdempotencyKey e2 t2
  <-> e1 = e2 /\ t1 / 1000 = t2 / 1000.
Proof.
  split.
  - intros Heq. unfold generateIdempotencyKey in Heq.
    apply colon_split_inj in Heq as [-> Hp]; try apply pretty_Z_noColon.
    apply (inj pretty) in Hp. split; [done|]. lia.
  - intros [-> H]. unfold generateIdempotencyKey. by rewrite H.
Qed.

Lemma generateIdempotencyKey_inj_witness :
  generateIdempotencyKey "a@x.com" 1700000000123
  = generateIdempotencyKey "a@x.com" 1700000000999
  /\ 1700000000123 / 1000 = 1700000000999 / 1000.
Proof.
  assert (generateIdempotencyKey "a@x.com" 1700000000123
          = generateIdempotencyKey "a@x.com" 1700000000999) as Heq
    by (vm_compute; reflexivity).
  split; [exact Heq|].
  apply (proj1 (generateIdempotencyKey_inj _ _ _ _) Heq).
Defined.

(** X2.  A call that takes the delayed branch sleeps for a time between
    [minDelay] and [maxDelay] (between 5000 and 10000 ms without a
    configuration), provided the bounds are in order and the draw is in
    [0, 1]; it has not touched the store when it goes to sleep, and it
    sleeps on its own key. *)
Theorem delay_between_bounds
    (formData : FormData) (key : string) (config : PartialMockApiConfig)
    (env : Entropy) (store store' : gmap string Submission) (s : Sleeper) :
  submitToMockApi formData key config env store = (store', Sleeping s) ->
  (0 <= delayRandom env <= 1)%Q ->
  (minDelay (finalConfigOf config) <= maxDelay (finalConfigOf config))%Q ->
  (minDelay (finalConfigOf config) <= slDelay s <= maxDelay (finalConfigOf config))%Q
  /\ (config = noConfig -> (5000 <= slDelay s <= 10000)%Q)
  /\ store' = store /\ store !! key = None /\ slKey s = key.
Proof.
  intros Hcall [Hr0 Hr1] Hmm.
  unfold submitToMockApi in Hcall.
  destruct (store !! key) eqn:Hk; [done|]. cbv zeta in Hcall.
  destruct (negb _ && negb _); [|by destruct (ltb _ _)].
  injection Hcall as <- <-. simpl.
  set (lo := minDelay (finalConfigOf config)) in *.
  set (hi := maxDelay (finalConfigOf config)) in *.
  assert (lo <= delayRandom env * (hi - lo) + lo <= hi)%Q as Hb.
  { split; nra. }
  split; [exact Hb|]. split; [|done].
  intros ->. exact Hb.
Qed.

Lemma delay_between_bounds_witness :
  exists s, submitToMockApi sampleForm "k" noConfig (sampleEntropy 0.9) ∅
            = (∅, Sleeping s)
            /\ (5000 <= slDelay s <= 10000)%Q.
Proof.
  eexists. split; [reflexivity|].
  refine (proj1 (proj2 (delay_between_bounds sampleForm "k" noConfig
                          (sampleEntropy 0.9) ∅ ∅ _ eq_refl _ _)) eq_refl);
    vm_compute; try split; discriminate.
Defined.



(** X4.  A call reads and writes the store under its own key only: the
    record of every other key is what it was, after the synchronous part,
    after the wake-up of a suspended call, and after the whole call; no key
    is ever removed, and the store grows by one record at most. *)
Theorem call_touches_only_its_key
    (formData : FormData) (key : string) (config : PartialMockApiConfig)
    (env : Entropy) (store : gmap string Submission) :
  let after := (submitToMockApi_alone formData key config env store).1.1 in
  (forall k, k <> key -> after !! k = store !! k)
  /\ (forall k, k <> key ->
        (submitToMockApi formData key config env store).1 !! k = store !! k)
  /\ (forall (s : Sleeper) k, k <> slKey s ->
        (submitToMockApi_wake s store).1 !! k = store !! k)
  /\ dom store ⊆ dom after
  /\ dom after ⊆ dom store ∪ {[key]}
  /\ (size store <= size after <= S (size store))%nat.
Proof.
  intros after.
  assert (after = store \/ exists d, store !! key = None /\ after = <[key := d]> store)
    as Hafter.
  { unfold after.
    destruct (submitToMockApi_alone_cases formData key config env store)
      as [(c & _ & ->)|[(_ & ->)|(Hk & delay & ->)]];
      simpl; eauto. }
  split; [|split; [|split; [|split; [|split]]]].
  - intros k Hne. destruct Hafter as [->|(d & _ & ->)]; [done|].
    by rewrite lookup_insert_ne.
  - intros k Hne.
    destruct (submitToMockApi_cases formData key config env store)
      as [(c & _ & ->)|[(_ & ->)|[(_ & s & _ & ->)|(_ & d & _ & ->)]]]; simpl; try done.
    by rewrite lookup_insert_ne.
  - intros s k Hne. simpl. by rewrite lookup_insert_ne.
  - destruct Hafter as [->|(d & _ & ->)]; [done|].
    rewrite dom_insert_L. apply union_subseteq_r.
  - destruct Hafter as [->|(d & _ & ->)]; [apply union_subseteq_l|].
    rewrite dom_insert_L.
    apply union_least; [apply union_subseteq_r|apply union_subseteq_l].
  - destruct Hafter as [->|(d & Hk & ->)]; [lia|].
    rewrite map_size_insert_None by done. lia.
Qed.

Lemma call_touches_only_its_key_witness :
  "j"%string <> "k"%string
  /\ (submitToMockApi_alone sampleForm "k" noConfig (sampleEntropy 0.9)
        {[ "j"%string := sampleRecord ]}).1.1 !! "j"%string
     = Some sampleRecord.
Proof.
  assert ("j"%string <> "k"%string) as Hne by discriminate.
  split; [exact Hne|].
  rewrite (proj1 (call_touches_only_its_key sampleForm "k" noConfig
                    (sampleEntropy 0.9) {[ "j"%string := sampleRecord ]}) "j"%string Hne).
  reflexivity.
Defined.

(** X5.  On a store of success records, a call that is awaited and answers
    with a success has its record in the store under its key, and every
    later call with that key, whatever its form data, configuration and
    draws and whatever calls were awaited in between, answers at once with
    that same record and leaves the store alone.  A call that found no
    record stores one built from its own form data. *)
Theorem success_is_replayed
    (formData : FormData) (key : string) (config : PartialMockApiConfig)
    (env : Entropy) (store store1 : gmap string Submission)
    (r : ApiResponse) (delay : option Q) :
  onlySuccesses store ->
  submitToMockApi_alone formData key config env store = (store1, r, delay) ->
  success r = true ->
  exists d,
    r = successOf d
    /\ store1 !! key = Some d
    /\ (store !! key = None -> d = freshRecord formData env)
    /\ forall (later : list CallArgs) formData' config' env',
         let store2 := callsInTurn later store1 in
         submitToMockApi_alone formData' key config' env' store2
         = (store2, successOf d, None).
Proof.
  intros Hall Hcall Hok.
  assert (forall c, status c = StSuccess -> cachedResponse c = successOf c) as Hcs.
  { intros c Hc. unfold cachedResponse. by rewrite Hc. }
  assert (exists d, r = successOf d /\ store1 !! key = Some d /\ status d = StSuccess
                    /\ (store !! key = None -> d = freshRecord formData env))
    as (d & -> & Hk & Hst & Hfresh).
  { destruct (submitToMockApi_alone_cases formData key config env store)
      as [(c & Hc & E)|[(_ & E)|(_ & delay1 & E)]];
      rewrite E in Hcall; simplify_eq.
    - exists c. split; [by apply Hcs, (Hall key)|]. split; [done|].
      split; [by apply (Hall key)|]. congruence.
    - exists (freshRecord formData env). split; [done|].
      split; [apply lookup_insert_eq|done]. }
  exists d. split; [done|]. split; [done|]. split; [done|].
  intros later formData' config' env' store2.
  pose proof (callsInTurn_keeps later store1 key d Hk) as Hk2. fold store2 in Hk2.
  unfold submitToMockApi_alone.
  rewrite (submitToMockApi_hit _ _ _ _ _ _ Hk2). by rewrite Hcs.
Qed.

Lemma success_is_replayed_witness :
  onlySuccesses (∅ : gmap string Submission)
  /\ exists d,
       (submitToMockApi_alone sampleForm "k" noConfig (sampleEntropy 0.9) ∅).1.2
       = successOf d
       /\ submitToMockApi_alone otherForm "k" noConfig (sampleEntropy 0.1)
            (callsInTurn [sampleCall "j" 0.95]
               (submitToMockApi_alone sampleForm "k" noConfig
                  (sampleEntropy 0.9) ∅).1.1)
          = (callsInTurn [sampleCall "j" 0.95]
               (submitToMockApi_alone sampleForm "k" noConfig
                  (sampleEntropy 0.9) ∅).1.1,
             successOf d, None).
Proof.
  assert (onlySuccesses (∅ : gmap string Submission)) as Hall
    by apply map_Forall_empty.
  split; [exact Hall|].
  destruct (success_is_replayed sampleForm "k" noConfig (sampleEntropy 0.9) ∅
              _ _ _ Hall eq_refl eq_refl) as (d & Hr & _ & _ & Hlater).
  exists d. split; [exact Hr|].
  apply (Hlater [sampleCall "j" 0.95] otherForm noConfig (sampleEntropy 0.1)).
Defined.

(** X6.  [clearIdempotencyStore] empties the store but cancels nothing: the
    calls that are asleep stay asleep, and the next one to wake writes its
    record into the emptied store.  After a clear a call for any key is
    processed afresh: it fails, or it stores a record built from its own
    form data as the only record. *)
Theorem clear_keeps_suspended_calls (sv : Service) (i : nat) (s : Sleeper) :
  sleepers sv !! i = Some s ->
  getAllSubmissions (idempotencyStore (serve Clear sv).1) = []
  /\ sleepers (serve Clear sv).1 = sleepers sv
  /\ idempotencyStore (serveAll [Clear; Fire i] sv)
     = {[ slKey s := withStatus (slSubmission s) StSuccess ]}
  /\ (forall formData key config env,
        let cleared := idempotencyStore (serve Clear sv).1 in
        submitToMockApi_alone formData key config env cleared
          = (∅, failure503, None)
        \/ exists delay,
             submitToMockApi_alone formData key config env cleared
             = ({[ key := freshRecord formData env ]},
                successOf (freshRecord formData env), delay)).
Proof.
  intros Hs. split; [|split; [done|split]].
  - simpl. unfold getAllSubmissions, clearIdempotencyStore.
    by rewrite map_to_list_empty.
  - simpl. rewrite Hs. simpl. unfold clearIdempotencyStore.
    by rewrite insert_empty.
  - intros formData key config env cleared.
    destruct (submitToMockApi_alone_cases formData key config env cleared)
      as [(c & Hc & _)|[(_ & ->)|(_ & delay & ->)]].
    + unfold cleared in Hc. simpl in Hc. unfold clearIdempotencyStore in Hc.
      by rewrite lookup_empty in Hc.
    + by left.
    + right. exists delay. unfold cleared. simpl. unfold clearIdempotencyStore.
      by rewrite insert_empty.
Qed.

Lemma clear_keeps_suspended_calls_witness :
  let sv := (serve (Call sampleForm "k" noConfig (sampleEntropy 0.9)) boot).1 in
  idempotencyStore (serveAll [Clear; Fire 0] sv) !! "k"%string = Some sampleRecord.
Proof.
  intros sv.
  destruct (clear_keeps_suspended_calls sv 0 _ eq_refl) as (_ & _ & -> & _).
  reflexivity.
Defined.

(** X7.  [getAllSubmissions] returns, in some order, exactly the records
    the store holds, one per key; whatever the service has served since it
    was loaded, every one of them has status "success".  (The order, which
    is the insertion order in the source, is not modelled.) *)
Theorem getAllSubmissions_lists_the_store (rqs : list Request) (r : Submission) :
  let store := idempotencyStore (serveAll rqs boot) in
  (r ∈ getAllSubmissions store <-> exists key, store !! key = Some r)
  /\ length (getAllSubmissions store) = size store
  /\ Forall (fun r => status r = StSuccess) (getAllSubmissions store).
Proof.
  intros store. unfold getAllSubmissions. split; [|split].
  - rewrite list_elem_of_fmap. split.
    + intros ([k v] & -> & Hin). exists k. by apply elem_of_map_to_list.
    + intros (k & Hk). exists (k, r). split; [done|]. by apply elem_of_map_to_list.
  - by rewrite length_fmap, length_map_to_list.
  - apply Forall_fmap, Forall_forall. intros [k v] Hin%elem_of_map_to_list.
    by apply (serveAll_onlySuccesses rqs boot (map_Forall_empty _) k v).
Qed.

End ServiceExtras.

(** * Further properties of the hook *)

Module HookExtras.
Import UseSubmission MockApiFacts HookFacts ExtraFacts Samples.

(** X8.  Every accepted [submit] releases its lock: whatever the endpoint
    answers and whatever else runs between its steps, the call returns with
    the in-progress cell cleared and [isSubmitting] false, and the last
    snapshot it showed, which is the current submission, has status
    "success" or "error". *)
Theorem submit_always_releases_the_token
    (numberToString : Q -> string) (ep : Endpoint)
    (others : nat -> World ep -> World ep)
    (formData : FormData) (env : SubmitEnv ep) (w w' : World ep)
    (rest : option (Frame ep)) (evs : list Event) :
  submissionInProgressRef (hook w) <> Some (dedupeToken numberToString formData) ->
  submitAmid numberToString ep others formData env w = (w', rest, evs) ->
  rest = None
  /\ submissionInProgressRef (hook w') = None
  /\ isSubmitting (hook w') = false
  /\ exists s, last (snapshots evs) = Some s
       /\ currentSubmission (hook w') = Some s
       /\ (status s = StSuccess \/ status s = StError).
Proof.
  intros Hfree Hrun. unfold submitAmid in Hrun.
  destruct (submit_cases numberToString formData env w)
    as [(Hin & _)|(_ & E)]; [done|]. rewrite E in Hrun; clear E.
  destruct (runAmid others enoughFuel _ _) as [[w2 fr2] evs2] eqn:Erun.
  simplify_eq.
  destruct (run_ends others enoughFuel _ _ _ _ _
              (firstFrame_wellFormed formData env (service w))
              ltac:(cbv; lia) Erun)
    as (-> & Href & Hbusy & s & Hl & Hcur & Hst).
  repeat split; try done. exists s. split; [|done].
  simpl. by rewrite !last_cons, Hl.
Qed.

Lemma submit_always_releases_the_token_witness :
  let run := submitAlone wholeNumberToString mockApi sampleForm
               (sampleEnv [0.2; 0.9]%Q) freshWorld in
  submissionInProgressRef (hook freshWorld)
    <> Some (dedupeToken wholeNumberToString sampleForm)
  /\ submissionInProgressRef (hook run.1.1) = None
  /\ isSubmitting (hook run.1.1) = false.
Proof.
  intros run.
  assert (submissionInProgressRef (hook freshWorld)
          <> Some (dedupeToken wholeNumberToString sampleForm)) as Hfree by done.
  split; [exact Hfree|].
  destruct (submit_always_releases_the_token wholeNumberToString mockApi quiet
              sampleForm (sampleEnv [0.2; 0.9]%Q) freshWorld
              run.1.1 run.1.2 run.2 Hfree (step_eta run))
    as (_ & Href & Hbusy & _).
  split; [exact Href|exact Hbusy].
Defined.

(** X9.  The snapshots of an accepted [submit] start with the pending
    submission at [retryCount = 0]; from one snapshot to the next the
    counter never decreases, and it never exceeds [MAX_RETRIES]. *)
Theorem snapshots_count_attempts
    (numberToString : Q -> string) (ep : Endpoint)
    (others : nat -> World ep -> World ep)
    (formData : FormData) (env : SubmitEnv ep) (w w' : World ep)
    (rest : option (Frame ep)) (evs : list Event) :
  submissionInProgressRef (hook w) <> Some (dedupeToken numberToString formData) ->
  submitAmid numberToString ep others formData env w = (w', rest, evs) ->
  head (snapshots evs) = Some (pendingSubmissionOf formData env)
  /\ Forall (fun s => (retryCount s <= MAX_RETRIES)%nat) (snapshots evs)
  /\ StronglySorted (fun a b => (retryCount a <= retryCount b)%nat) (snapshots evs).
Proof.
  intros Hfree Hrun. unfold submitAmid in Hrun.
  destruct (submit_cases numberToString formData env w)
    as [(Hin & _)|(_ & E)]; [done|]. rewrite E in Hrun; clear E.
  destruct (runAmid others enoughFuel _ _) as [[w2 fr2] evs2] eqn:Erun.
  simplify_eq.
  destruct (run_counters others enoughFuel _ _ _ _ _
              (firstFrame_wellFormed formData env (service w)) Erun)
    as [Hall Hsort].
  simpl. split; [done|]. split.
  - constructor; [simpl; lia|].
    eapply Forall_impl; [exact Hall|]. simpl. intros; lia.
  - constructor; [done|].
    eapply Forall_impl; [exact Hall|]. simpl. intros; lia.
Qed.

Lemma snapshots_count_attempts_witness :
  let run := submitAlone wholeNumberToString mockApi sampleForm
               (sampleEnv [0.2; 0.5; 0.9]%Q) freshWorld in
  submissionInProgressRef (hook freshWorld)
    <> Some (dedupeToken wholeNumberToString sampleForm)
  /\ retryCount <$> snapshots run.2 = [0; 1; 2; 2]%nat
  /\ Forall (fun s => (retryCount s <= MAX_RETRIES)%nat) (snapshots run.2).
Proof.
  intros run.
  assert (submissionInProgressRef (hook freshWorld)
          <> Some (dedupeToken wholeNumberToString sampleForm)) as Hfree by done.
  split; [exact Hfree|]. split; [vm_compute; reflexivity|].
  destruct (snapshots_count_attempts wholeNumberToString mockApi quiet
              sampleForm (sampleEnv [0.2; 0.5; 0.9]%Q) freshWorld
              run.1.1 run.1.2 run.2 Hfree (step_eta run))
    as (_ & Hall & _).
  exact Hall.
Defined.

(** X10.  Every snapshot of an accepted [submit], except a success
    snapshot, is the pending submission with another status, counter and
    message: it has the email and the amount of the form and the id and the
    timestamp made when [submit] was called.  (The success snapshot is the
    record of the service, with an id of its own.) *)
Theorem snapshots_keep_the_pending_identity
    (numberToString : Q -> string) (ep : Endpoint)
    (others : nat -> World ep -> World ep)
    (formData : FormData) (env : SubmitEnv ep) (w w' : World ep)
    (rest : option (Frame ep)) (evs : list Event) :
  submissionInProgressRef (hook w) <> Some (dedupeToken numberToString formData) ->
  submitAmid numberToString ep others formData env w = (w', rest, evs) ->
  Forall (fun s => status s = StSuccess
                   \/ (sEmail s = email formData /\ sAmount s = amount formData
                       /\ id s = (pretty (now env) +:+ "-" +:+ idTail env)%string
                       /\ timestamp s = now env))
         (snapshots evs).
Proof.
  intros Hfree Hrun. unfold submitAmid in Hrun.
  destruct (submit_cases numberToString formData env w)
    as [(Hin & _)|(_ & E)]; [done|]. rewrite E in Hrun; clear E.
  destruct (runAmid others enoughFuel _ _) as [[w2 fr2] evs2] eqn:Erun.
  simplify_eq.
  pose proof (run_identity others enoughFuel _ _ _ _ _
                (firstFrame_wellFormed formData env (service w)) Erun) as Hall.
  simpl. apply Forall_cons. split; [by right|].
  eapply Forall_impl; [exact Hall|]. simpl.
  intros s [Hs|[(? & ? & ? & ?) _]]; [by left|by right].
Qed.

Lemma snapshots_keep_the_pending_identity_witness :
  let run := submitAlone wholeNumberToString mockApi sampleForm
               (sampleEnv [0.2; 0.9]%Q) freshWorld in
  submissionInProgressRef (hook freshWorld)
    <> Some (dedupeToken wholeNumberToString sampleForm)
  /\ id <$> snapshots run.2
     = ["1700000000123-p0o9i8u7y"; "1700000000123-p0o9i8u7y";
        "1700000000501-k3j9x0a1b"]%string
  /\ Forall (fun s => status s = StSuccess
                      \/ (sEmail s = "a@x.com"%string /\ sAmount s = 50%Q
                          /\ id s = "1700000000123-p0o9i8u7y"%string
                          /\ timestamp s = 1700000000123%Z))
            (snapshots run.2).
Proof.
  intros run.
  assert (submissionInProgressRef (hook freshWorld)
          <> Some (dedupeToken wholeNumberToString sampleForm)) as Hfree by done.
  split; [exact Hfree|]. split; [vm_compute; reflexivity|].
  apply (snapshots_keep_the_pending_identity wholeNumberToString mockApi quiet
           sampleForm (sampleEnv [0.2; 0.9]%Q) freshWorld
           run.1.1 run.1.2 run.2 Hfree (step_eta run)).
Defined.

(** X11.  An accepted [submit] awaits every endpoint call it makes, so it
    sees as many outcomes as it made calls (at least one), and it waits
    [RETRY_DELAY] once between two consecutive calls and at no other time:
    3 waits of 2000 ms at most. *)
Theorem submit_accounting
    (numberToString : Q -> string) (ep : Endpoint)
    (others : nat -> World ep -> World ep)
    (formData : FormData) (env : SubmitEnv ep) (w w' : World ep)
    (rest : option (Frame ep)) (evs : list Event) :
  submissionInProgressRef (hook w) <> Some (dedupeToken numberToString formData) ->
  submitAmid numberToString ep others formData env w = (w', rest, evs) ->
  (1 <= invocations evs)%nat
  /\ length (outcomes evs) = invocations evs
  /\ backoffs evs = replicate (invocations evs - 1) RETRY_DELAY.
Proof.
  intros Hfree Hrun. unfold submitAmid in Hrun.
  destruct (submit_cases numberToString formData env w)
    as [(Hin & _)|(_ & E)]; [done|]. rewrite E in Hrun; clear E.
  destruct (runAmid others enoughFuel _ _) as [[w2 fr2] evs2] eqn:Erun.
  simplify_eq.
  destruct (run_ends others enoughFuel _ _ _ _ _
              (firstFrame_wellFormed formData env (service w))
              ltac:(cbv; lia) Erun) as (-> & _).
  pose proof (run_accounting others enoughFuel _ _ _ _
                (firstFrame_wellFormed formData env (service w)) Erun) as Hacc.
  simpl in Hacc. destruct Hacc as [Ho Hb].
  unfold invocations in *. simpl. rewrite Nat.sub_0_r. split; [lia|done].
Qed.

Lemma submit_accounting_witness :
  let run := submitAlone wholeNumberToString mockApi sampleForm
               (sampleEnv [0.2; 0.5; 0.9]%Q) freshWorld in
  submissionInProgressRef (hook freshWorld)
    <> Some (dedupeToken wholeNumberToString sampleForm)
  /\ invocations run.2 = 3%nat
  /\ backoffs run.2 = replicate (invocations run.2 - 1) RETRY_DELAY.
Proof.
  intros run.
  assert (submissionInProgressRef (hook freshWorld)
          <> Some (dedupeToken wholeNumberToString sampleForm)) as Hfree by done.
  split; [exact Hfree|]. split; [vm_compute; reflexivity|].
  destruct (submit_accounting wholeNumberToString mockApi quiet
              sampleForm (sampleEnv [0.2; 0.5; 0.9]%Q) freshWorld
              run.1.1 run.1.2 run.2 Hfree (step_eta run))
    as (_ & _ & Hb).
  exact Hb.
Defined.

(** X12.  With the service of this repository and a store of success
    records, the catch branch of [submit] is never taken: every outcome is
    the 503 response or a success carrying a success record, the store is
    still a store of success records afterwards, and a submission that ends
    with status "error" always shows "Failed after 3 retries: Service
    temporarily unavailable", with the error cell "Submission failed:
    Service temporarily unavailable". *)
Theorem mockApi_only_answers_503_or_success
    (numberToString : Q -> string) (formData : FormData)
    (env : SubmitEnv mockApi) (w w' : World mockApi)
    (rest : option (Frame mockApi)) (evs : list Event) :
  MockApi.onlySuccesses (storeOf w) ->
  submitAlone numberToString mockApi formData env w = (w', rest, evs) ->
  Forall mockOutcome (outcomes evs)
  /\ MockApi.onlySuccesses (storeOf w')
  /\ forall s, submissionInProgressRef (hook w)
               <> Some (dedupeToken numberToString formData) ->
       currentSubmission (hook w') = Some s -> status s = StError ->
       errorMessage s
         = Some "Failed after 3 retries: Service temporarily unavailable"%string
       /\ error (hook w')
          = Some "Submission failed: Service temporarily unavailable"%string.
Proof.
  intros Hall Hrun. unfold submitAlone, submitAmid in Hrun.
  destruct (submit_cases numberToString formData env w)
    as [(Hin & E)|(Hout & E)]; rewrite E in Hrun; clear E.
  { simplify_eq. split; [constructor|]. split; [done|]. done. }
  destruct (runAmid quiet enoughFuel _ _) as [[w2 fr2] evs2] eqn:Erun.
  simplify_eq.
  destruct (callMockApi_forms formData
              (MockApi.generateIdempotencyKey (email formData) (now env))
              (entropy env 0%nat) (service w) Hall) as [Hall' Hform].
  pose proof (run_ends quiet enoughFuel _ _ _ _ _
                (firstFrame_wellFormed formData env (service w))
                ltac:(cbv; lia) Erun) as (-> & _).
  eapply mock_run in Erun;
    [|apply firstFrame_wellFormed|exact Hform|exact Hall'].
  destruct Erun as (Hos & Hall2 & Hend).
  split; [exact Hos|]. split; [exact Hall2|].
  intros s _ Hcur Hst. by apply Hend.
Qed.

Lemma mockApi_only_answers_503_or_success_witness :
  let run := submitAlone wholeNumberToString mockApi sampleForm
               (sampleEnv [0.1; 0.5; 0.69; 0.3]%Q) freshWorld in
  MockApi.onlySuccesses (storeOf freshWorld)
  /\ error (hook run.1.1)
     = Some "Submission failed: Service temporarily unavailable"%string.
Proof.
  intros run.
  assert (MockApi.onlySuccesses (storeOf freshWorld)) as Hall
    by (unfold storeOf, freshWorld; simpl; apply map_Forall_empty).
  split; [exact Hall|].
  destruct (mockApi_only_answers_503_or_success wholeNumberToString sampleForm
              (sampleEnv [0.1; 0.5; 0.69; 0.3]%Q) freshWorld
              run.1.1 run.1.2 run.2 Hall (step_eta run)) as (_ & _ & Hend).
  eapply Hend; [done|vm_compute; reflexivity|reflexivity].
Defined.

(** X13.  With the service of this repository: when the idempotency key of
    a [submit] already has a (success) record in the store, the call makes
    one endpoint call, shows the pending snapshot and then that record with
    [retryCount = 0], puts it in front of [submissions], clears the lock and
    the error cell, and leaves the store alone.  The record shown is the
    stored one: its email and amount are not taken from the form. *)
Theorem stored_key_is_replayed_to_the_hook
    (numberToString : Q -> string) (formData : FormData)
    (env : SubmitEnv mockApi) (w : World mockApi) (r : Submission) :
  let token := dedupeToken numberToString formData in
  let key := MockApi.generateIdempotencyKey (email formData) (now env) in
  let shown := successSnapshot r 0 in
  submissionInProgressRef (hook w) <> Some token ->
  storeOf w !! key = Some r ->
  status r = StSuccess ->
  submitAlone numberToString mockApi formData env w
  = ({| hook := {| submissions := shown :: submissions (hook w);
                   isSubmitting := false; error := None;
                   currentSubmission := Some shown;
                   submissionInProgressRef := None |};
        service := service w |},
     None,
     [Shown (pendingSubmissionOf formData env); Invoked formData key;
      Answered (Fulfilled (MockApi.successOf r)); Shown shown]).
Proof.
  intros token key shown Hfree Hk Hst.
  unfold submitAlone, submitAmid.
  destruct (submit_cases numberToString formData env w)
    as [(Hin & _)|(_ & ->)]; [done|].
  fold key. unfold firstFrame. fold key. simpl epCall.
  unfold callMockApi. unfold storeOf in Hk.
  rewrite (submitToMockApi_hit _ _ _ _ _ _ Hk).
  rewrite (cachedResponse_success _ Hst).
  reflexivity.
Qed.

Lemma stored_key_is_replayed_to_the_hook_witness :
  let w := {| hook := initialHookState;
              service := ({[ "b@x.com:1700000000000"%string := sampleRecord ]}
                          : epState mockApi) |} in
  submissionInProgressRef (hook w) <> Some (dedupeToken wholeNumberToString otherForm)
  /\ storeOf w !! MockApi.generateIdempotencyKey (email otherForm)
                    (now (sampleEnv []%Q)) = Some sampleRecord
  /\ outcomes (submitAlone wholeNumberToString mockApi otherForm
                 (sampleEnv []%Q) w).2
     = [Fulfilled (MockApi.successOf sampleRecord)].
Proof.
  intros w.
  assert (submissionInProgressRef (hook w)
          <> Some (dedupeToken wholeNumberToString otherForm)) as Hfree by done.
  assert (storeOf w !! MockApi.generateIdempotencyKey (email otherForm)
                         (now (sampleEnv []%Q)) = Some sampleRecord) as Hk
    by (vm_compute; reflexivity).
  split; [exact Hfree|]. split; [exact Hk|].
  by rewrite (stored_key_is_replayed_to_the_hook wholeNumberToString otherForm
                (sampleEnv []%Q) w sampleRecord Hfree Hk eq_refl).
Defined.

(** X14.  However [submit] calls and their continuations interleave after
    the hook is mounted, [submissions] lists, newest first, exactly the
    records of the successful outcomes observed so far (by id), one entry
    per success, and every entry has status "success". *)
Theorem history_lists_the_successes
    (numberToString : Q -> string) (ep : Endpoint) (sv : epState ep)
    (ts : list (Turn ep)) :
  let s := turns numberToString ep ts (mounted ep sv) in
  id <$> submissions (hook (world s)) = reverse (id <$> successes (observed s))
  /\ Forall (fun x => status x = StSuccess) (submissions (hook (world s)))
  /\ length (submissions (hook (world s))) = length (successes (observed s)).
Proof.
  intros s.
  destruct (turns_history numberToString ts (mounted ep sv))
    as (added & Ho & Hs & Hok). fold s in Ho, Hs, Hok.
  simpl in Ho, Hs. rewrite app_nil_r in Hs. rewrite Ho.
  split; [exact Hs|]. split; [apply Hok; constructor|].
  apply (f_equal length) in Hs. by rewrite length_reverse, !length_fmap in Hs.
Qed.

(** X15.  [clearError] clears the error cell and nothing else.  It does not
    release the in-progress lock: [submit] behaves the same before and after
    it (accepted or rejected alike), a submission in flight runs exactly as
    it would have, and after a rejected duplicate it restores the cells to
    what they were if there was no error before. *)
Theorem clearError_only_clears_the_error
    (numberToString : Q -> string) (ep : Endpoint) (w : World ep) :
  error (hook (onHook clearError w)) = None
  /\ sameButError (onHook clearError w) w
  /\ (forall formData (env : SubmitEnv ep),
        submit numberToString ep formData env (onHook clearError w)
        = submit numberToString ep formData env w)
  /\ (forall fuel (fr : Frame ep),
        (runAmid quiet fuel fr (onHook clearError w)).1.2
          = (runAmid quiet fuel fr w).1.2
        /\ (runAmid quiet fuel fr (onHook clearError w)).2
          = (runAmid quiet fuel fr w).2
        /\ sameButError (runAmid quiet fuel fr (onHook clearError w)).1.1
                        (runAmid quiet fuel fr w).1.1)
  /\ (forall formData (env : SubmitEnv ep),
        submissionInProgressRef (hook w)
          = Some (dedupeToken numberToString formData) ->
        error (hook w) = None ->
        onHook clearError (submit numberToString ep formData env w).1.1 = w).
Proof.
  split; [done|]. split; [done|]. split; [|split].
  - intros formData env.
    destruct (submit_cases numberToString formData env (onHook clearError w))
      as [(Hin & ->)|(Hout & ->)];
    destruct (submit_cases numberToString formData env w)
      as [(Hin' & ->)|(Hout' & ->)]; try done.
  - intros fuel fr. by apply runAmid_sameButError.
  - intros formData env Hin Hnone.
    destruct (submit_cases numberToString formData env w)
      as [(_ & ->)|(Hout & _)]; [|done].
    destruct w as [[] sv]. simpl in *. by subst.
Qed.

Lemma clearError_only_clears_the_error_witness :
  let busy := (submit wholeNumberToString mockApi sampleForm
                 (sampleEnv [0.9]%Q) freshWorld).1.1 in
  submissionInProgressRef (hook busy)
    = Some (dedupeToken wholeNumberToString sampleForm)
  /\ error (hook busy) = None
  /\ onHook clearError
       (submit wholeNumberToString mockApi sampleForm (sampleEnv [0.1]%Q) busy).1.1
     = busy.
Proof.
  intros busy.
  assert (submissionInProgressRef (hook busy)
          = Some (dedupeToken wholeNumberToString sampleForm)) as Hin
    by (vm_compute; reflexivity).
  assert (error (hook busy) = None) as Hnone by reflexivity.
  split; [exact Hin|]. split; [exact Hnone|].
  apply (proj2 (proj2 (proj2 (proj2
           (clearError_only_clears_the_error wholeNumberToString mockApi busy))))
           sampleForm (sampleEnv [0.1]%Q) Hin Hnone).
Defined.

End HookExtras.
